(** * Quote Forge: ownership-scoped server actions over two tables

    Shallow embedding of [db/tables.ts] (the two tables) and of
    [src/actions/index.ts] (the identity check, the ownership guard and the
    seven actions of [server]).  A table is the list of its rows in storage
    order; a request threads the store through the statements it issues and
    ends either fulfilled with an envelope or rejected with the error that
    was thrown. *)

From Stdlib Require Import String List ZArith Bool Lia.
Import ListNotations.
Local Open Scope string_scope.

(** ** Tables ([db/tables.ts]) *)

(** [column.text({ optional: true })] is an [option string]; [column.date] is
    a timestamp in milliseconds. *)
Module QuoteCollections.
Record row : Type := mk {
  id : string;
  userId : string;
  name : string;
  description : option string;
  icon : option string;
  isDefault : bool;
  createdAt : Z;
  updatedAt : Z
}.
End QuoteCollections.

Module Quotes.
Record row : Type := mk {
  id : string;
  collectionId : string;
  userId : string;
  text : string;
  attributedTo : option string;
  mood : option string;
  tags : option string;
  language : option string;
  isFavorite : bool;
  isPublic : bool;
  createdAt : Z;
  updatedAt : Z
}.
End Quotes.

Record Store : Type := mkStore {
  collections : list QuoteCollections.row;
  quotes : list Quotes.row
}.

Definition empty_store : Store := mkStore [] [].

(** ** Errors, outcomes and the request monad *)

Inductive ActionErrorCode : Type := UNAUTHORIZED | NOT_FOUND.

(** An issue reported by the input schema: a [min(1)] string that is empty,
    or a failed [refine] with its message. *)
Inductive ZodIssue : Type :=
| too_small (path : string)
| custom (message : string).

Inductive Thrown : Type :=
| ActionError (code : ActionErrorCode) (message : string)
| ActionInputError (issues : list ZodIssue)
| ConstraintError (table : string).

Inductive Outcome (A : Type) : Type :=
| Fulfilled (a : A)
| Rejected (e : Thrown).
Arguments Fulfilled {A} a.
Arguments Rejected {A} e.

Definition Async (A : Type) : Type := Store -> Outcome A * Store.

Definition ret {A} (a : A) : Async A := fun st => (Fulfilled a, st).

Definition throw {A} (e : Thrown) : Async A := fun st => (Rejected e, st).

Definition bind {A B} (m : Async A) (k : A -> Async B) : Async B :=
  fun st =>
    match m st with
    | (Fulfilled a, st') => k a st'
    | (Rejected e, st') => (Rejected e, st')
    end.

Definition lift {A} (o : Outcome A) : Async A := fun st => (o, st).

Notation "x <- m ;; k" := (bind m (fun x => k))
  (at level 61, m at next level, right associativity).

(** ** The store client ([astro:db]) *)

Module Db.
(** Filters: [eq(column, value)] on a text or boolean column and
    [and(...filters)]. *)
Definition eq {R} (column : R -> string) (value : string) : R -> bool :=
  fun r => String.eqb (column r) value.

Definition eq_bool {R} (column : R -> bool) (value : bool) : R -> bool :=
  fun r => Bool.eqb (column r) value.

Definition and {R} (filters : list (R -> bool)) : R -> bool :=
  fun r => forallb (fun f => f r) filters.

Section Table.
Context {R : Type}.
Variable pk : R -> string.

Definition select_where (p : R -> bool) (t : list R) : list R :=
  filter p t.

(** [insert(...).values(r).returning()]: the primary key rejects a row
    whose key is already stored. *)
Definition insert_values (r : R) (t : list R) : option (list R * list R) :=
  if existsb (fun r' => String.eqb (pk r') (pk r)) t then None
  else Some ((t ++ [r])%list, [r]).

(** [update(...).set(s).where(p).returning()]. *)
Definition update_where (s : R -> R) (p : R -> bool) (t : list R)
  : list R * list R :=
  (map (fun r => if p r then s r else r) t, map s (filter p t)).

(** [delete(...).where(p)], with [rowsAffected]. *)
Definition delete_where (p : R -> bool) (t : list R) : list R * nat :=
  (filter (fun r => negb (p r)) t, length (filter p t)).
End Table.

Definition select_collections (p : QuoteCollections.row -> bool)
  : Async (list QuoteCollections.row) :=
  fun st => (Fulfilled (select_where p (collections st)), st).

Definition select_quotes (p : Quotes.row -> bool) : Async (list Quotes.row) :=
  fun st => (Fulfilled (select_where p (quotes st)), st).

Definition insert_collection (r : QuoteCollections.row)
  : Async (list QuoteCollections.row) :=
  fun st =>
    match insert_values QuoteCollections.id r (collections st) with
    | Some (t, ret_rows) => (Fulfilled ret_rows, mkStore t (quotes st))
    | None => (Rejected (ConstraintError "QuoteCollections"), st)
    end.

Definition insert_quote (r : Quotes.row) : Async (list Quotes.row) :=
  fun st =>
    match insert_values Quotes.id r (quotes st) with
    | Some (t, ret_rows) => (Fulfilled ret_rows, mkStore (collections st) t)
    | None => (Rejected (ConstraintError "Quotes"), st)
    end.

Definition update_collections (s : QuoteCollections.row -> QuoteCollections.row)
    (p : QuoteCollections.row -> bool) : Async (list QuoteCollections.row) :=
  fun st =>
    let (t, ret_rows) := update_where s p (collections st) in
    (Fulfilled ret_rows, mkStore t (quotes st)).

Definition update_quotes (s : Quotes.row -> Quotes.row)
    (p : Quotes.row -> bool) : Async (list Quotes.row) :=
  fun st =>
    let (t, ret_rows) := update_where s p (quotes st) in
    (Fulfilled ret_rows, mkStore (collections st) t).

Definition delete_quotes (p : Quotes.row -> bool) : Async nat :=
  fun st =>
    let (t, rowsAffected) := delete_where p (quotes st) in
    (Fulfilled rowsAffected, mkStore (collections st) t).
End Db.

(** ** Request context and runtime *)

Record User : Type := mkUser { user_id : string }.

Record Locals : Type := mkLocals { user : option User }.

Record Context : Type := mkContext { locals : option Locals }.

(** What [new Date()] and [crypto.randomUUID()] yield during one request. *)
Record Runtime : Type := mkRuntime { now : Z; randomUUID : string }.

(** ** Result envelope *)

Inductive Data : Type :=
| collection_data (collection : option QuoteCollections.row)
| quote_data (quote : option Quotes.row)
| collection_items (items : list QuoteCollections.row) (total : nat)
| quote_items (items : list Quotes.row) (total : nat)
| no_data.

Record Envelope : Type := mkEnvelope { success : bool; data : Data }.

(** ** [requireUser] and [getOwnedCollection] *)

(** [locals?.user]. *)
Definition locals_user (locals : option Locals) : option User :=
  match locals with
  | Some l => user l
  | None => None
  end.

Definition requireUser (context : Context) : Outcome User :=
  let user := locals_user (locals context) in
  match user with
  | None =>
      Rejected (ActionError UNAUTHORIZED
                  "You must be signed in to perform this action.")
  | Some u => Fulfilled u
  end.

Definition getOwnedCollection (collectionId userId : string)
  : Async QuoteCollections.row :=
  rows <- Db.select_collections
            (Db.and [Db.eq QuoteCollections.id collectionId;
                     Db.eq QuoteCollections.userId userId]) ;;
  match rows with
  | collection :: _ => ret collection
  | [] => throw (ActionError NOT_FOUND "Collection not found.")
  end.

(** ** Input schemas and [defineAction] *)

Module Zod.
(** [z.string().min(1)] at [path]. *)
Definition min1 (path value : string) : list ZodIssue :=
  if String.eqb value "" then [too_small path] else [].

(** [z.string().min(1).optional()] at [path]. *)
Definition optional_min1 (path : string) (value : option string)
  : list ZodIssue :=
  match value with
  | Some v => min1 path v
  | None => []
  end.

(** [.refine(check, { message })]. *)
Definition refine (check : bool) (message : string) : list ZodIssue :=
  if check then [] else [custom message].

(** [x !== undefined]. *)
Definition defined {A} (x : option A) : bool :=
  match x with Some _ => true | None => false end.

(** [x ?? d] and [.default(d)]. *)
Definition or_default {A} (x : option A) (d : A) : A :=
  match x with Some v => v | None => d end.

Definition result {O} (issues : list ZodIssue) (value : O)
  : list ZodIssue + O :=
  match issues with
  | [] => inr value
  | _ :: _ => inl issues
  end.
End Zod.

(** [defineAction({ input, handler })]: the input is parsed by the schema
    first; the handler runs on the parsed value only. *)
Definition defineAction {I O} (input : I -> list ZodIssue + O)
    (handler : O -> Context -> Async Envelope)
  : I -> Context -> Async Envelope :=
  fun raw context =>
    match input raw with
    | inl issues => throw (ActionInputError issues)
    | inr parsed => handler parsed context
    end.


(** A spread [...(x !== undefined ? { k: x } : {})] inside [.set({...})]:
    the column takes the provided value and keeps its own otherwise. *)
Definition assign {A} (x : option A) (old : A) : A :=
  match x with Some v => v | None => old end.

Definition assign_optional {A} (x : option A) (old : option A) : option A :=
  match x with Some v => Some v | None => old end.

(** [const [row] = rows]. *)
Definition first {A} (rows : list A) : option A := hd_error rows.

(** ** The seven actions of [server] *)

Module createCollection.
Record input : Type := mk {
  name : string;
  description : option string;
  icon : option string;
  isDefault : option bool
}.

Definition issues (i : input) : list ZodIssue :=
  Zod.min1 "name" (name i).

Definition schema (i : input) : list ZodIssue + input :=
  Zod.result (issues i) i.

Definition handler (rt : Runtime) (i : input) (context : Context)
  : Async Envelope :=
  user <- lift (requireUser context) ;;
  rows <- Db.insert_collection
            (QuoteCollections.mk (randomUUID rt) (user_id user) (name i)
               (description i) (icon i) (Zod.or_default (isDefault i) false)
               (now rt) (now rt)) ;;
  ret (mkEnvelope true (collection_data (first rows))).

Definition action (rt : Runtime) := defineAction schema (handler rt).
End createCollection.

Module updateCollection.
Record input : Type := mk {
  id : string;
  name : option string;
  description : option string;
  icon : option string;
  isDefault : option bool
}.

Definition provided (i : input) : bool :=
  Zod.defined (name i) || Zod.defined (description i)
  || Zod.defined (icon i) || Zod.defined (isDefault i).

Definition issues (i : input) : list ZodIssue :=
  (Zod.min1 "id" (id i) ++ Zod.optional_min1 "name" (name i)
   ++ Zod.refine (provided i)
        "At least one field must be provided to update.")%list.

Definition schema (i : input) : list ZodIssue + input :=
  Zod.result (issues i) i.

Definition set (rt : Runtime) (i : input) (r : QuoteCollections.row)
  : QuoteCollections.row :=
  QuoteCollections.mk
    (QuoteCollections.id r)
    (QuoteCollections.userId r)
    (assign (name i) (QuoteCollections.name r))
    (assign_optional (description i) (QuoteCollections.description r))
    (assign_optional (icon i) (QuoteCollections.icon r))
    (assign (isDefault i) (QuoteCollections.isDefault r))
    (QuoteCollections.createdAt r)
    (now rt).

Definition handler (rt : Runtime) (i : input) (context : Context)
  : Async Envelope :=
  user <- lift (requireUser context) ;;
  _ <- getOwnedCollection (id i) (user_id user) ;;
  rows <- Db.update_collections (set rt i)
            (Db.eq QuoteCollections.id (id i)) ;;
  ret (mkEnvelope true (collection_data (first rows))).

Definition action (rt : Runtime) := defineAction schema (handler rt).
End updateCollection.

Module listCollections.
(** [z.object({}).optional()]: an empty object, or nothing. *)
Definition input : Type := option unit.

Definition issues (i : input) : list ZodIssue := [].

Definition schema (i : input) : list ZodIssue + input :=
  Zod.result (issues i) i.

Definition handler (rt : Runtime) (_input : input) (context : Context)
  : Async Envelope :=
  user <- lift (requireUser context) ;;
  collections <- Db.select_collections
                   (Db.eq QuoteCollections.userId (user_id user)) ;;
  ret (mkEnvelope true (collection_items collections (length collections))).

Definition action (rt : Runtime) := defineAction schema (handler rt).
End listCollections.

Module createQuote.
Record input : Type := mk {
  collectionId : string;
  text : string;
  attributedTo : option string;
  mood : option string;
  tags : option string;
  language : option string;
  isFavorite : option bool;
  isPublic : option bool
}.

Definition issues (i : input) : list ZodIssue :=
  (Zod.min1 "collectionId" (collectionId i) ++ Zod.min1 "text" (text i))%list.

Definition schema (i : input) : list ZodIssue + input :=
  Zod.result (issues i) i.

Definition handler (rt : Runtime) (i : input) (context : Context)
  : Async Envelope :=
  user <- lift (requireUser context) ;;
  _ <- getOwnedCollection (collectionId i) (user_id user) ;;
  rows <- Db.insert_quote
            (Quotes.mk (randomUUID rt) (collectionId i) (user_id user)
               (text i) (attributedTo i) (mood i) (tags i) (language i)
               (Zod.or_default (isFavorite i) false)
               (Zod.or_default (isPublic i) false)
               (now rt) (now rt)) ;;
  ret (mkEnvelope true (quote_data (first rows))).

Definition action (rt : Runtime) := defineAction schema (handler rt).
End createQuote.

Module updateQuote.
Record input : Type := mk {
  id : string;
  collectionId : string;
  text : option string;
  attributedTo : option string;
  mood : option string;
  tags : option string;
  language : option string;
  isFavorite : option bool;
  isPublic : option bool
}.

Definition provided (i : input) : bool :=
  Zod.defined (text i) || Zod.defined (attributedTo i)
  || Zod.defined (mood i) || Zod.defined (tags i)
  || Zod.defined (language i) || Zod.defined (isFavorite i)
  || Zod.defined (isPublic i).

Definition issues (i : input) : list ZodIssue :=
  (Zod.min1 "id" (id i) ++ Zod.min1 "collectionId" (collectionId i)
   ++ Zod.refine (provided i)
        "At least one field must be provided to update.")%list.

Definition schema (i : input) : list ZodIssue + input :=
  Zod.result (issues i) i.

Definition set (rt : Runtime) (i : input) (r : Quotes.row) : Quotes.row :=
  Quotes.mk
    (Quotes.id r)
    (Quotes.collectionId r)
    (Quotes.userId r)
    (assign (text i) (Quotes.text r))
    (assign_optional (attributedTo i) (Quotes.attributedTo r))
    (assign_optional (mood i) (Quotes.mood r))
    (assign_optional (tags i) (Quotes.tags r))
    (assign_optional (language i) (Quotes.language r))
    (assign (isFavorite i) (Quotes.isFavorite r))
    (assign (isPublic i) (Quotes.isPublic r))
    (Quotes.createdAt r)
    (now rt).

Definition handler (rt : Runtime) (i : input) (context : Context)
  : Async Envelope :=
  user <- lift (requireUser context) ;;
  _ <- getOwnedCollection (collectionId i) (user_id user) ;;
  existing <- Db.select_quotes
                (Db.and [Db.eq Quotes.id (id i);
                         Db.eq Quotes.collectionId (collectionId i)]) ;;
  match first existing with
  | None => throw (ActionError NOT_FOUND "Quote not found.")
  | Some _ =>
      rows <- Db.update_quotes (set rt i) (Db.eq Quotes.id (id i)) ;;
      ret (mkEnvelope true (quote_data (first rows)))
  end.

Definition action (rt : Runtime) := defineAction schema (handler rt).
End updateQuote.

Module deleteQuote.
Record input : Type := mk {
  id : string;
  collectionId : string
}.

Definition issues (i : input) : list ZodIssue :=
  (Zod.min1 "id" (id i) ++ Zod.min1 "collectionId" (collectionId i))%list.

Definition schema (i : input) : list ZodIssue + input :=
  Zod.result (issues i) i.

Definition handler (rt : Runtime) (i : input) (context : Context)
  : Async Envelope :=
  user <- lift (requireUser context) ;;
  _ <- getOwnedCollection (collectionId i) (user_id user) ;;
  rowsAffected <- Db.delete_quotes
                    (Db.and [Db.eq Quotes.id (id i);
                             Db.eq Quotes.collectionId (collectionId i)]) ;;
  if Nat.eqb rowsAffected 0
  then throw (ActionError NOT_FOUND "Quote not found.")
  else ret (mkEnvelope true no_data).

Definition action (rt : Runtime) := defineAction schema (handler rt).
End deleteQuote.

Module listQuotes.
(** What the caller sends: the two flags may be left out. *)
Record input : Type := mk {
  collectionId : string;
  favoritesOnly : option bool;
  includePublic : option bool
}.

(** What the handler receives: [.default(false)] filled in. *)
Record parsed : Type := mkParsed {
  p_collectionId : string;
  p_favoritesOnly : bool;
  p_includePublic : bool
}.

Definition issues (i : input) : list ZodIssue :=
  Zod.min1 "collectionId" (collectionId i).

Definition parse (i : input) : parsed :=
  mkParsed (collectionId i)
    (Zod.or_default (favoritesOnly i) false)
    (Zod.or_default (includePublic i) false).

Definition schema (i : input) : list ZodIssue + parsed :=
  Zod.result (issues i) (parse i).

Definition handler (rt : Runtime) (i : parsed) (context : Context)
  : Async Envelope :=
  user <- lift (requireUser context) ;;
  _ <- getOwnedCollection (p_collectionId i) (user_id user) ;;
  let filters :=
    [Db.eq Quotes.collectionId (p_collectionId i);
     Db.eq Quotes.userId (user_id user)] in
  let filters :=
    if p_favoritesOnly i
    then (filters ++ [Db.eq_bool Quotes.isFavorite true])%list
    else filters in
  let filters :=
    if negb (p_includePublic i) then filters else filters in
  quotes <- Db.select_quotes (Db.and filters) ;;
  ret (mkEnvelope true (quote_items quotes (length quotes))).

Definition action (rt : Runtime) := defineAction schema (handler rt).
End listQuotes.

(** ** The [server] object: one call to one of its actions *)

Inductive Call : Type :=
| call_createCollection (i : createCollection.input)
| call_updateCollection (i : updateCollection.input)
| call_listCollections (i : listCollections.input)
| call_createQuote (i : createQuote.input)
| call_updateQuote (i : updateQuote.input)
| call_deleteQuote (i : deleteQuote.input)
| call_listQuotes (i : listQuotes.input).

Definition server (rt : Runtime) (context : Context) (c : Call)
  : Async Envelope :=
  match c with
  | call_createCollection i => createCollection.action rt i context
  | call_updateCollection i => updateCollection.action rt i context
  | call_listCollections i => listCollections.action rt i context
  | call_createQuote i => createQuote.action rt i context
  | call_updateQuote i => updateQuote.action rt i context
  | call_deleteQuote i => deleteQuote.action rt i context
  | call_listQuotes i => listQuotes.action rt i context
  end.

(** The issues the action's schema raises on the call's input; the input is
    valid when there are none. *)
Definition call_issues (c : Call) : list ZodIssue :=
  match c with
  | call_createCollection i => createCollection.issues i
  | call_updateCollection i => updateCollection.issues i
  | call_listCollections i => listCollections.issues i
  | call_createQuote i => createQuote.issues i
  | call_updateQuote i => updateQuote.issues i
  | call_deleteQuote i => deleteQuote.issues i
  | call_listQuotes i => listQuotes.issues i
  end.

Definition valid (c : Call) : bool :=
  match call_issues c with [] => true | _ :: _ => false end.

(** The handler a valid call reaches, on its parsed input. *)
Definition handle (rt : Runtime) (context : Context) (c : Call)
  : Async Envelope :=
  match c with
  | call_createCollection i => createCollection.handler rt i context
  | call_updateCollection i => updateCollection.handler rt i context
  | call_listCollections i => listCollections.handler rt i context
  | call_createQuote i => createQuote.handler rt i context
  | call_updateQuote i => updateQuote.handler rt i context
  | call_deleteQuote i => deleteQuote.handler rt i context
  | call_listQuotes i => listQuotes.handler rt (listQuotes.parse i) context
  end.

(** The collection id a call hands to the ownership guard, for the five
    actions that call [getOwnedCollection]. *)
Definition guarded_collection (c : Call) : option string :=
  match c with
  | call_createCollection _ => None
  | call_updateCollection i => Some (updateCollection.id i)
  | call_listCollections _ => None
  | call_createQuote i => Some (createQuote.collectionId i)
  | call_updateQuote i => Some (updateQuote.collectionId i)
  | call_deleteQuote i => Some (deleteQuote.collectionId i)
  | call_listQuotes i => Some (listQuotes.collectionId i)
  end.

(** A request as it arrives: runtime values, context, call. *)
Definition Request : Type := (Runtime * Context * Call)%type.

Definition serve (rq : Request) : Async Envelope :=
  let '(rt, context, c) := rq in server rt context c.

(** The store after a sequence of requests served one after the other. *)
Definition run (trace : list Request) (st : Store) : Store :=
  fold_left (fun s rq => snd (serve rq s)) trace st.

(** ** Ownership and membership tests used in the statements *)

(** Some collection row has this id and this owner. *)
Definition owned (st : Store) (collectionId userId : string) : bool :=
  existsb (fun c => String.eqb (QuoteCollections.id c) collectionId
                    && String.eqb (QuoteCollections.userId c) userId)
    (collections st).

(** Some collection row has this id, whoever owns it. *)
Definition collection_exists (st : Store) (collectionId : string) : bool :=
  existsb (fun c => String.eqb (QuoteCollections.id c) collectionId)
    (collections st).

(** Some quote row has this id under this collection. *)
Definition quote_under (st : Store) (id collectionId : string) : bool :=
  existsb (fun q => String.eqb (Quotes.id q) id
                    && String.eqb (Quotes.collectionId q) collectionId)
    (quotes st).

(** ** Store invariants *)

Fixpoint distinct (keys : list string) : bool :=
  match keys with
  | [] => true
  | k :: rest => negb (existsb (String.eqb k) rest) && distinct rest
  end.

(** The primary keys of [db/tables.ts]: no two rows of a table share an id. *)
Definition pk_unique (st : Store) : bool :=
  distinct (map QuoteCollections.id (collections st))
  && distinct (map Quotes.id (quotes st)).

(** A quote's denormalised owner is the owner of its parent collection:
    some collection row carries the quote's collectionId and userId. *)
Definition owner_consistent (st : Store) : bool :=
  forallb (fun q => owned st (Quotes.collectionId q) (Quotes.userId q))
    (quotes st).

(** The shapes a served request can give the store. *)
Inductive Effect (rq : Request) (st st' : Store) : Prop :=
| effect_none :
    st' = st -> Effect rq st st'
| effect_new_collection (c : QuoteCollections.row) :
    ~ In (QuoteCollections.id c) (map QuoteCollections.id (collections st)) ->
    st' = mkStore (collections st ++ [c])%list (quotes st) ->
    Effect rq st st'
| effect_patch_collections (rt : Runtime) (i : updateCollection.input)
    (p : QuoteCollections.row -> bool) :
    st' = mkStore
            (map (fun r => if p r then updateCollection.set rt i r else r)
               (collections st))
            (quotes st) ->
    Effect rq st st'
| effect_new_quote (rt : Runtime) (context : Context)
    (i : createQuote.input) (u : User) (q : Quotes.row) :
    rq = (rt, context, call_createQuote i) ->
    locals_user (locals context) = Some u ->
    Quotes.userId q = user_id u ->
    Quotes.collectionId q = createQuote.collectionId i ->
    owned st (createQuote.collectionId i) (user_id u) = true ->
    ~ In (Quotes.id q) (map Quotes.id (quotes st)) ->
    st' = mkStore (collections st) (quotes st ++ [q])%list ->
    Effect rq st st'
| effect_patch_quotes (rt : Runtime) (i : updateQuote.input)
    (p : Quotes.row -> bool) :
    st' = mkStore (collections st)
            (map (fun r => if p r then updateQuote.set rt i r else r)
               (quotes st)) ->
    Effect rq st st'
| effect_delete_quotes (p : Quotes.row -> bool) :
    st' = mkStore (collections st) (filter p (quotes st)) ->
    Effect rq st st'.

(** ** Handlers with the ownership filter embedded in the final write

    These two follow the recommendation of the design notes rather than the
    source: the same handlers, except that the WHERE clause of the final
    UPDATE repeats the filter of the preceding read. *)

Definition updateCollection_owner_filtered (rt : Runtime)
    (i : updateCollection.input) (context : Context) : Async Envelope :=
  user <- lift (requireUser context) ;;
  _ <- getOwnedCollection (updateCollection.id i) (user_id user) ;;
  rows <- Db.update_collections (updateCollection.set rt i)
            (Db.and [Db.eq QuoteCollections.id (updateCollection.id i);
                     Db.eq QuoteCollections.userId (user_id user)]) ;;
  ret (mkEnvelope true (collection_data (first rows))).

Definition updateQuote_collection_filtered (rt : Runtime)
    (i : updateQuote.input) (context : Context) : Async Envelope :=
  user <- lift (requireUser context) ;;
  _ <- getOwnedCollection (updateQuote.collectionId i) (user_id user) ;;
  existing <- Db.select_quotes
                (Db.and [Db.eq Quotes.id (updateQuote.id i);
                         Db.eq Quotes.collectionId (updateQuote.collectionId i)]) ;;
  match first existing with
  | None => throw (ActionError NOT_FOUND "Quote not found.")
  | Some _ =>
      rows <- Db.update_quotes (updateQuote.set rt i)
                (Db.and [Db.eq Quotes.id (updateQuote.id i);
                         Db.eq Quotes.collectionId (updateQuote.collectionId i)]) ;;
      ret (mkEnvelope true (quote_data (first rows)))
  end.

(** ** Sample requests *)

Definition signed_in (uid : string) : Context :=
  mkContext (Some (mkLocals (Some (mkUser uid)))).

Definition signed_out : Context := mkContext (Some (mkLocals None)).

Definition no_locals : Context := mkContext None.

Definition unauthorized : Thrown :=
  ActionError UNAUTHORIZED "You must be signed in to perform this action.".

Definition collection_not_found : Thrown :=
  ActionError NOT_FOUND "Collection not found.".

Definition quote_not_found : Thrown :=
  ActionError NOT_FOUND "Quote not found.".

(** Alice creates two collections and a quote in the first; Bob creates a
    collection of his own. *)
Definition sample_trace : list Request :=
  [ (mkRuntime 1000 "c-1", signed_in "alice",
     call_createCollection
       (createCollection.mk "Motivation" None None None));
    (mkRuntime 1001 "c-2", signed_in "alice",
     call_createCollection
       (createCollection.mk "Leadership" (Some "work") None (Some true)));
    (mkRuntime 1002 "c-3", signed_in "bob",
     call_createCollection
       (createCollection.mk "Calm" None None None));
    (mkRuntime 1003 "q-1", signed_in "alice",
     call_createQuote
       (createQuote.mk "c-1" "Keep going" (Some "Karthik") (Some "inspiring")
          None (Some "en") None None)) ].

Definition sample_store : Store := Eval cbv in run sample_trace empty_store.

(** The sample store once the quote is marked as a favourite. *)
Definition favourite_store : Store :=
  Eval cbv in
    run [ (mkRuntime 1004 "unused", signed_in "alice",
           call_updateQuote
             (updateQuote.mk "q-1" "c-1" None None None None None
                (Some true) None)) ]
      sample_store.

(** The items of a listing, when the call returned one. *)
Definition listed (o : Outcome Envelope) : option (list Quotes.row) :=
  match o with
  | Fulfilled (mkEnvelope _ (quote_items items _)) => Some items
  | _ => None
  end.

(** Every row of [l1] is in [l2], and [l2] has a row that [l1] lacks. *)
Definition strict_subset (l1 l2 : list Quotes.row) : Prop :=
  incl l1 l2 /\ ~ incl l2 l1.

(** ** Rows of other users *)

(** The collection rows, and the quote rows, whose owner is not [uid]. *)
Definition foreign_collections (uid : string) (st : Store)
  : list QuoteCollections.row :=
  filter (fun c => negb (String.eqb (QuoteCollections.userId c) uid))
    (collections st).

Definition foreign_quotes (uid : string) (st : Store) : list Quotes.row :=
  filter (fun q => negb (String.eqb (Quotes.userId q) uid)) (quotes st).

(** The collection rows owned by [uid], as listCollections selects them. *)
Definition own_collections (uid : string) (st : Store)
  : list QuoteCollections.row :=
  filter (Db.eq QuoteCollections.userId uid) (collections st).

(** The quote rows stored under a collection, whoever their owner is. *)
Definition quotes_under (collectionId : string) (st : Store)
  : list Quotes.row :=
  filter (fun q => String.eqb (Quotes.collectionId q) collectionId)
    (quotes st).

(** The quote rows of a collection that carry [uid] as owner, narrowed to
    the favourites when asked, as listQuotes selects them. *)
Definition own_quotes_under (uid collectionId : string) (favoritesOnly : bool)
    (st : Store) : list Quotes.row :=
  filter (fun q => String.eqb (Quotes.collectionId q) collectionId
                   && String.eqb (Quotes.userId q) uid
                   && (negb favoritesOnly || Quotes.isFavorite q))
    (quotes st).

(** Some quote row has this id, whatever its collection. *)
Definition quote_exists (st : Store) (id : string) : bool :=
  existsb (fun q => String.eqb (Quotes.id q) id) (quotes st).

(** Whether the outcome is a rejection by the input schema. *)
Definition input_error {A} (o : Outcome A) : bool :=
  match o with
  | Rejected (ActionInputError _) => true
  | _ => false
  end.

(** * Properties *)

(** ** Lists and filters *)

Lemma store_eta (st : Store) : mkStore (collections st) (quotes st) = st.
Proof. destruct st; reflexivity. Qed.

Section Filters.
Context {R : Type}.
Implicit Types (p : R -> bool) (t : list R).

Lemma filter_nil_iff p t :
  filter p t = [] <-> existsb p t = false.
Proof.
  induction t as [|r t IH]; simpl; [tauto|].
  destruct (p r); simpl; [split; discriminate | exact IH].
Qed.

(** A DELETE that affected no row removed nothing. *)
Lemma delete_nothing p t :
  length (filter p t) = 0 -> filter (fun r => negb (p r)) t = t.
Proof.
  induction t as [|r t IH]; simpl; intros H; [reflexivity|].
  destruct (p r); simpl in *; [discriminate | f_equal; auto].
Qed.

Lemma filter_agree p p' t :
  (forall r, In r t -> p r = p' r) -> filter p t = filter p' t.
Proof. intros H; apply filter_ext_in; exact H. Qed.

Lemma update_agree (s : R -> R) p p' t :
  (forall r, In r t -> p r = p' r) ->
  Db.update_where s p t = Db.update_where s p' t.
Proof.
  intros H; unfold Db.update_where; f_equal.
  - apply map_ext_in; intros r Hr; rewrite (H r Hr); reflexivity.
  - f_equal; apply filter_agree; exact H.
Qed.
End Filters.

(** Under a primary key, a row is determined by its key. *)
Lemma pk_determines {R} (pk : R -> string) (t : list R) (r r' : R) :
  NoDup (map pk t) -> In r t -> In r' t -> pk r = pk r' -> r = r'.
Proof.
  induction t as [|x t IH]; simpl; intros ND Hr Hr' E; [contradiction|].
  inversion ND as [|? ? Hx ND']; subst.
  destruct Hr as [->|Hr], Hr' as [->|Hr']; auto.
  - exfalso; apply Hx; rewrite E; apply in_map; exact Hr'.
  - exfalso; apply Hx; rewrite <- E; apply in_map; exact Hr.
Qed.

Lemma distinct_NoDup (keys : list string) :
  distinct keys = true <-> NoDup keys.
Proof.
  induction keys as [|k rest IH]; simpl.
  - split; [constructor | reflexivity].
  - rewrite andb_true_iff, negb_true_iff, IH; split.
    + intros [Hk ND]; constructor; [|exact ND].
      intros Hin; apply not_true_iff_false in Hk; apply Hk.
      apply existsb_exists; exists k; split; [exact Hin|].
      apply String.eqb_refl.
    + intros ND; inversion ND as [|? ? Hk ND']; subst; split; [|exact ND'].
      apply not_true_iff_false; intros E; apply existsb_exists in E.
      destruct E as (y & Hy & E); apply String.eqb_eq in E; subst y.
      contradiction.
Qed.

Lemma pk_unique_NoDup st :
  pk_unique st = true <->
  NoDup (map QuoteCollections.id (collections st))
  /\ NoDup (map Quotes.id (quotes st)).
Proof.
  unfold pk_unique; rewrite andb_true_iff, !distinct_NoDup; tauto.
Qed.

(** ** The guard *)

Lemma and2_true {R} (f g : R -> bool) r :
  Db.and [f; g] r = f r && g r.
Proof. unfold Db.and; simpl; rewrite andb_true_r; reflexivity. Qed.

Lemma guard_filter_owned st cid uid :
  Db.select_where
    (Db.and [Db.eq QuoteCollections.id cid; Db.eq QuoteCollections.userId uid])
    (collections st) = [] <-> owned st cid uid = false.
Proof.
  unfold Db.select_where, owned; rewrite filter_nil_iff.
  assert (E : existsb
                (Db.and [Db.eq QuoteCollections.id cid;
                         Db.eq QuoteCollections.userId uid]) (collections st)
              = existsb
                  (fun c => String.eqb (QuoteCollections.id c) cid
                            && String.eqb (QuoteCollections.userId c) uid)
                  (collections st)).
  { induction (collections st) as [|c t IH]; cbn [existsb]; [reflexivity|].
    rewrite IH, and2_true; reflexivity. }
  rewrite E; tauto.
Qed.

Lemma guard_rejects st cid uid :
  owned st cid uid = false ->
  getOwnedCollection cid uid st = (Rejected collection_not_found, st).
Proof.
  intros H; apply guard_filter_owned in H.
  unfold getOwnedCollection, bind, Db.select_collections; rewrite H.
  reflexivity.
Qed.

Lemma guard_passes st cid uid :
  owned st cid uid = true ->
  exists c, getOwnedCollection cid uid st = (Fulfilled c, st)
            /\ In c (collections st)
            /\ QuoteCollections.id c = cid
            /\ QuoteCollections.userId c = uid.
Proof.
  intros H.
  unfold getOwnedCollection, bind, Db.select_collections.
  destruct (Db.select_where _ (collections st)) as [|c rows] eqn:E.
  - apply guard_filter_owned in E; congruence.
  - exists c; split; [reflexivity|].
    assert (Hc : In c (Db.select_where
                         (Db.and [Db.eq QuoteCollections.id cid;
                                  Db.eq QuoteCollections.userId uid])
                         (collections st))) by (rewrite E; left; reflexivity).
    apply filter_In in Hc; destruct Hc as [Hin Hp].
    rewrite and2_true in Hp; apply andb_true_iff in Hp; destruct Hp as [H1 H2].
    apply String.eqb_eq in H1, H2; auto.
Qed.

(** The guard only reads. *)
Lemma guard_outcome st cid uid :
  getOwnedCollection cid uid st
  = if owned st cid uid
    then (fst (getOwnedCollection cid uid st), st)
    else (Rejected collection_not_found, st).
Proof.
  destruct (owned st cid uid) eqn:E.
  - destruct (guard_passes _ _ _ E) as (c & -> & _); reflexivity.
  - apply guard_rejects; exact E.
Qed.

Lemma requireUser_some context u :
  locals_user (locals context) = Some u -> requireUser context = Fulfilled u.
Proof. unfold requireUser; intros ->; reflexivity. Qed.

Lemma requireUser_none context :
  locals_user (locals context) = None ->
  requireUser context = Rejected unauthorized.
Proof. unfold requireUser; intros ->; reflexivity. Qed.

(** ** Validation comes before the handler *)

Lemma defineAction_result {I O} (iss : I -> list ZodIssue) (val : I -> O)
    (h : O -> Context -> Async Envelope) (i : I) (context : Context) :
  defineAction (fun x => Zod.result (iss x) (val x)) h i context
  = if match iss i with [] => true | _ :: _ => false end
    then h (val i) context
    else throw (ActionInputError (iss i)).
Proof. unfold defineAction, Zod.result; destruct (iss i); reflexivity. Qed.

Lemma server_dispatch rt context c :
  server rt context c
  = if valid c then handle rt context c
    else throw (ActionInputError (call_issues c)).
Proof.
  destruct c; unfold valid; cbn [server call_issues handle].
  - apply (defineAction_result createCollection.issues (fun x => x)).
  - apply (defineAction_result updateCollection.issues (fun x => x)).
  - apply (defineAction_result listCollections.issues (fun x => x)).
  - apply (defineAction_result createQuote.issues (fun x => x)).
  - apply (defineAction_result updateQuote.issues (fun x => x)).
  - apply (defineAction_result deleteQuote.issues (fun x => x)).
  - apply (defineAction_result listQuotes.issues listQuotes.parse).
Qed.

Lemma server_invalid rt context c st :
  valid c = false ->
  server rt context c st = (Rejected (ActionInputError (call_issues c)), st).
Proof. intros H; rewrite server_dispatch, H; reflexivity. Qed.

Lemma server_valid rt context c :
  valid c = true -> server rt context c = handle rt context c.
Proof. intros H; rewrite server_dispatch, H; reflexivity. Qed.

Lemma handle_signed_out rt context c st :
  locals_user (locals context) = None ->
  handle rt context c st = (Rejected unauthorized, st).
Proof.
  intros H; destruct c; cbn [handle];
    unfold createCollection.handler, updateCollection.handler,
      listCollections.handler, createQuote.handler, updateQuote.handler,
      deleteQuote.handler, listQuotes.handler, bind, lift;
    rewrite (requireUser_none _ H); reflexivity.
Qed.

(** C7 (as amended): with no resolvable identity in the context, a call whose
    input satisfies the action's schema is rejected with UNAUTHORIZED, and a
    call whose input violates the schema is rejected with the schema's
    validation issues, since the schema is applied before the handler and so
    before the identity check; in both cases the store is untouched. *)
Theorem C7_signed_out_outcome rt context c st :
  locals_user (locals context) = None ->
  server rt context c st
  = (Rejected (if valid c then unauthorized
               else ActionInputError (call_issues c)), st).
Proof.
  intros H; destruct (valid c) eqn:V.
  - rewrite (server_valid _ _ _ V); apply handle_signed_out; exact H.
  - apply server_invalid; exact V.
Qed.

Lemma C7_signed_out_outcome_witness :
  server (mkRuntime 5 "x") signed_out
    (call_deleteQuote (deleteQuote.mk "q-1" "c-1")) sample_store
  = (Rejected unauthorized, sample_store).
Proof.
  apply (C7_signed_out_outcome (mkRuntime 5 "x") signed_out
           (call_deleteQuote (deleteQuote.mk "q-1" "c-1")) sample_store).
  reflexivity.
Defined.

(** C7 (as stated) fails: an update with no patchable field sent without an
    identity is rejected by the schema, not with UNAUTHORIZED. *)
Lemma C7_counterexample :
  ~ (forall rt context c st,
        locals_user (locals context) = None ->
        fst (server rt context c st) = Rejected unauthorized).
Proof.
  intros H.
  specialize (H (mkRuntime 5 "x") no_locals
                (call_updateCollection
                   (updateCollection.mk "c-1" None None None None))
                sample_store eq_refl).
  vm_compute in H; discriminate H.
Qed.

Lemma guard_reads_only st cid uid :
  snd (getOwnedCollection cid uid st) = st.
Proof.
  rewrite guard_outcome; destruct (owned st cid uid); reflexivity.
Qed.

Lemma no_collection_not_owned st cid uid :
  collection_exists st cid = false -> owned st cid uid = false.
Proof.
  unfold collection_exists, owned.
  induction (collections st) as [|c t IH]; simpl; [reflexivity|].
  intros H; apply orb_false_iff in H; destruct H as [H1 H2].
  rewrite H1, (IH H2); reflexivity.
Qed.

Ltac unfold_handlers :=
  unfold createCollection.handler, updateCollection.handler,
    listCollections.handler, createQuote.handler, updateQuote.handler,
    deleteQuote.handler, listQuotes.handler,
    updateCollection_owner_filtered, updateQuote_collection_filtered.

Lemma handle_guard_rejects rt context u c cid st :
  locals_user (locals context) = Some u ->
  guarded_collection c = Some cid ->
  owned st cid (user_id u) = false ->
  handle rt context c st = (Rejected collection_not_found, st).
Proof.
  intros Hu Hg Ho.
  destruct c; cbn [guarded_collection] in Hg; try discriminate;
    injection Hg as <-; cbn [handle]; unfold_handlers; unfold bind, lift;
    rewrite (requireUser_some _ _ Hu);
    cbn [listQuotes.parse listQuotes.p_collectionId];
    rewrite (guard_rejects _ _ _ Ho); reflexivity.
Qed.

(** C1 (as amended): for a signed-in caller and a call to any of the five
    actions that run the ownership guard, when no collection row has both
    the given id and the caller's userId, a call whose input satisfies the
    action's schema is rejected with NOT_FOUND / "Collection not found.",
    and a call whose input violates the schema is rejected with the schema's
    validation issues, since the schema is applied before the handler and so
    before the guard; in both cases the store is untouched.  The hypothesis
    does not distinguish a collection that is absent from one owned by
    someone else, so code and message are the same in both cases. *)
Theorem C1_guard_not_found rt context u c cid st :
  locals_user (locals context) = Some u ->
  guarded_collection c = Some cid ->
  owned st cid (user_id u) = false ->
  server rt context c st
  = (Rejected (if valid c
               then ActionError NOT_FOUND "Collection not found."
               else ActionInputError (call_issues c)), st).
Proof.
  intros Hu Hg Ho; destruct (valid c) eqn:Hv.
  - rewrite (server_valid _ _ _ Hv).
    apply (handle_guard_rejects rt context u c cid st Hu Hg Ho).
  - apply server_invalid; exact Hv.
Qed.

(** Bob asks for Alice's quotes, then for the quotes of a collection that
    does not exist: the two rejections are the same. *)
Lemma C1_guard_not_found_witness :
  collection_exists sample_store "c-1" = true
  /\ collection_exists sample_store "c-9" = false
  /\ fst (server (mkRuntime 5 "x") (signed_in "bob")
            (call_listQuotes (listQuotes.mk "c-1" None None)) sample_store)
     = Rejected (ActionError NOT_FOUND "Collection not found.")
  /\ fst (server (mkRuntime 5 "x") (signed_in "bob")
            (call_listQuotes (listQuotes.mk "c-1" None None)) sample_store)
     = fst (server (mkRuntime 5 "x") (signed_in "bob")
              (call_listQuotes (listQuotes.mk "c-9" None None)) sample_store).
Proof.
  split; [reflexivity|]. split; [reflexivity|].
  rewrite (C1_guard_not_found (mkRuntime 5 "x") (signed_in "bob")
             (mkUser "bob")
             (call_listQuotes (listQuotes.mk "c-1" None None)) "c-1"
             sample_store eq_refl eq_refl eq_refl).
  rewrite (C1_guard_not_found (mkRuntime 5 "x") (signed_in "bob")
             (mkUser "bob")
             (call_listQuotes (listQuotes.mk "c-9" None None)) "c-9"
             sample_store eq_refl eq_refl eq_refl).
  split; reflexivity.
Defined.

(** C1 (as stated) fails: Bob's updateCollection on Alice's collection with
    no patchable field, and his listQuotes with an empty collectionId, are
    rejected by the schema, not with NOT_FOUND, although no collection row
    matches the id and his userId. *)
Lemma C1_counterexample :
  ~ (forall rt context u c cid st,
        locals_user (locals context) = Some u ->
        guarded_collection c = Some cid ->
        owned st cid (user_id u) = false ->
        fst (server rt context c st)
        = Rejected (ActionError NOT_FOUND "Collection not found.")).
Proof.
  intros H.
  specialize (H (mkRuntime 5 "x") (signed_in "bob") (mkUser "bob")
                (call_updateCollection
                   (updateCollection.mk "c-1" None None None None))
                "c-1" sample_store eq_refl eq_refl eq_refl).
  vm_compute in H; discriminate H.
Qed.

(** ** No partial success *)

Lemma handle_rejected_unchanged rt context c st e :
  fst (handle rt context c st) = Rejected e ->
  snd (handle rt context c st) = st.
Proof.
  destruct (locals_user (locals context)) as [u|] eqn:Hu;
    [|rewrite (handle_signed_out _ _ _ _ Hu); reflexivity].
  destruct c; cbn [handle]; unfold_handlers; unfold bind, lift;
    rewrite (requireUser_some _ _ Hu);
    cbn [listQuotes.parse listQuotes.p_collectionId];
    try (match goal with
         | |- context [getOwnedCollection ?cid ?uid st] =>
             rewrite (surjective_pairing (getOwnedCollection cid uid st));
             rewrite (guard_reads_only st cid uid);
             destruct (fst (getOwnedCollection cid uid st));
             [|reflexivity]
         end).
  - (* createCollection *)
    unfold Db.insert_collection, Db.insert_values.
    destruct (existsb _ (collections st)); cbn; [reflexivity | discriminate].
  - (* updateCollection *)
    cbn; discriminate.
  - (* listCollections *)
    cbn; discriminate.
  - (* createQuote *)
    unfold Db.insert_quote, Db.insert_values.
    destruct (existsb _ (quotes st)); cbn; [reflexivity | discriminate].
  - (* updateQuote *)
    unfold Db.select_quotes.
    destruct (first _); cbn; [discriminate | reflexivity].
  - (* deleteQuote *)
    unfold Db.delete_quotes, Db.delete_where; cbv beta iota.
    destruct (Nat.eqb _ 0) eqn:E; unfold throw, ret; cbn [fst snd];
      [|discriminate].
    intros _; apply Nat.eqb_eq in E.
    rewrite (delete_nothing _ _ E); apply store_eta.
  - (* listQuotes *)
    cbn; discriminate.
Qed.

(** C3: whenever one of the seven actions is rejected (UNAUTHORIZED,
    NOT_FOUND, a validation failure, or a key clash reported by the store),
    the store after the call is the store before it; this includes
    deleteQuote, whose DELETE ran but matched no row. *)
Theorem C3_rejected_leaves_store rt context c st e :
  fst (server rt context c st) = Rejected e ->
  snd (server rt context c st) = st.
Proof.
  rewrite server_dispatch; destruct (valid c).
  - apply handle_rejected_unchanged.
  - reflexivity.
Qed.

Lemma C3_rejected_leaves_store_witness :
  snd (server (mkRuntime 5 "x") (signed_in "alice")
         (call_deleteQuote (deleteQuote.mk "q-1" "c-2")) sample_store)
  = sample_store.
Proof.
  apply (C3_rejected_leaves_store (mkRuntime 5 "x") (signed_in "alice")
           (call_deleteQuote (deleteQuote.mk "q-1" "c-2")) sample_store
           quote_not_found).
  reflexivity.
Defined.

(** ** What each handler does for a signed-in caller *)

Lemma existsb_and2 {R} (f g : R -> bool) (t : list R) :
  existsb (Db.and [f; g]) t = existsb (fun r => f r && g r) t.
Proof.
  induction t as [|r t IH]; cbn [existsb]; [reflexivity|].
  rewrite IH, and2_true; reflexivity.
Qed.

Lemma quote_filter_under st id cid :
  Db.select_where
    (Db.and [Db.eq Quotes.id id; Db.eq Quotes.collectionId cid])
    (quotes st) = [] <-> quote_under st id cid = false.
Proof.
  unfold Db.select_where, quote_under.
  rewrite filter_nil_iff, existsb_and2; unfold Db.eq; tauto.
Qed.

Lemma guard_step_owned {B} st cid uid (k : QuoteCollections.row -> Async B) :
  owned st cid uid = true ->
  exists c, bind (getOwnedCollection cid uid) k st = k c st
            /\ In c (collections st)
            /\ QuoteCollections.id c = cid
            /\ QuoteCollections.userId c = uid.
Proof.
  intros H; destruct (guard_passes _ _ _ H) as (c & E & Hc).
  exists c; split; [|exact Hc].
  unfold bind; rewrite E; reflexivity.
Qed.

Lemma guard_step_rejected {B} st cid uid (k : QuoteCollections.row -> Async B) :
  owned st cid uid = false ->
  bind (getOwnedCollection cid uid) k st = (Rejected collection_not_found, st).
Proof. intros H; unfold bind; rewrite (guard_rejects _ _ _ H); reflexivity. Qed.

Lemma createCollection_does rt i context u st :
  locals_user (locals context) = Some u ->
  createCollection.handler rt i context st
  = let r := QuoteCollections.mk (randomUUID rt) (user_id u)
               (createCollection.name i) (createCollection.description i)
               (createCollection.icon i)
               (Zod.or_default (createCollection.isDefault i) false)
               (now rt) (now rt) in
    if existsb (fun r' => String.eqb (QuoteCollections.id r') (randomUUID rt))
         (collections st)
    then (Rejected (ConstraintError "QuoteCollections"), st)
    else (Fulfilled (mkEnvelope true (collection_data (Some r))),
          mkStore (collections st ++ [r])%list (quotes st)).
Proof.
  intros Hu; unfold createCollection.handler, bind, lift.
  rewrite (requireUser_some _ _ Hu).
  unfold Db.insert_collection, Db.insert_values; cbn [QuoteCollections.id].
  destruct (existsb _ (collections st)); reflexivity.
Qed.

Lemma updateCollection_does rt i context u st :
  locals_user (locals context) = Some u ->
  updateCollection.handler rt i context st
  = if owned st (updateCollection.id i) (user_id u)
    then
      let p := Db.eq QuoteCollections.id (updateCollection.id i) in
      let s := updateCollection.set rt i in
      (Fulfilled (mkEnvelope true
                    (collection_data (first (map s (filter p (collections st)))))),
       mkStore (map (fun r => if p r then s r else r) (collections st))
         (quotes st))
    else (Rejected collection_not_found, st).
Proof.
  intros Hu; unfold updateCollection.handler.
  unfold bind at 1, lift; rewrite (requireUser_some _ _ Hu).
  destruct (owned st (updateCollection.id i) (user_id u)) eqn:Ho.
  - destruct (guard_step_owned st _ _
                (fun _ => rows <- Db.update_collections
                                    (updateCollection.set rt i)
                                    (Db.eq QuoteCollections.id
                                       (updateCollection.id i)) ;;
                          ret (mkEnvelope true (collection_data (first rows))))
                Ho) as (c & -> & _).
    reflexivity.
  - apply guard_step_rejected; exact Ho.
Qed.

Lemma listCollections_does rt i context u st :
  locals_user (locals context) = Some u ->
  listCollections.handler rt i context st
  = let items := filter (Db.eq QuoteCollections.userId (user_id u))
                   (collections st) in
    (Fulfilled (mkEnvelope true (collection_items items (length items))), st).
Proof.
  intros Hu; unfold listCollections.handler, bind, lift.
  rewrite (requireUser_some _ _ Hu); reflexivity.
Qed.

Lemma createQuote_does rt i context u st :
  locals_user (locals context) = Some u ->
  createQuote.handler rt i context st
  = if owned st (createQuote.collectionId i) (user_id u)
    then
      let r := Quotes.mk (randomUUID rt) (createQuote.collectionId i)
                 (user_id u) (createQuote.text i) (createQuote.attributedTo i)
                 (createQuote.mood i) (createQuote.tags i)
                 (createQuote.language i)
                 (Zod.or_default (createQuote.isFavorite i) false)
                 (Zod.or_default (createQuote.isPublic i) false)
                 (now rt) (now rt) in
      if existsb (fun r' => String.eqb (Quotes.id r') (randomUUID rt))
           (quotes st)
      then (Rejected (ConstraintError "Quotes"), st)
      else (Fulfilled (mkEnvelope true (quote_data (Some r))),
            mkStore (collections st) (quotes st ++ [r])%list)
    else (Rejected collection_not_found, st).
Proof.
  intros Hu; unfold createQuote.handler.
  unfold bind at 1, lift; rewrite (requireUser_some _ _ Hu).
  destruct (owned st (createQuote.collectionId i) (user_id u)) eqn:Ho.
  - destruct (guard_step_owned st _ _
                (fun _ =>
                   rows <- Db.insert_quote
                     (Quotes.mk (randomUUID rt) (createQuote.collectionId i)
                        (user_id u) (createQuote.text i)
                        (createQuote.attributedTo i) (createQuote.mood i)
                        (createQuote.tags i) (createQuote.language i)
                        (Zod.or_default (createQuote.isFavorite i) false)
                        (Zod.or_default (createQuote.isPublic i) false)
                        (now rt) (now rt)) ;;
                   ret (mkEnvelope true (quote_data (first rows))))
                Ho) as (c & -> & _).
    unfold bind, Db.insert_quote, Db.insert_values; cbn [Quotes.id].
    destruct (existsb _ (quotes st)); reflexivity.
  - apply guard_step_rejected; exact Ho.
Qed.

Lemma guard_then {B} st cid uid (m : Async B) :
  owned st cid uid = true ->
  bind (getOwnedCollection cid uid) (fun _ => m) st = m st.
Proof.
  intros H; destruct (guard_passes _ _ _ H) as (c & E & _).
  unfold bind; rewrite E; reflexivity.
Qed.

Lemma first_none_iff {A} (l : list A) : first l = None <-> l = [].
Proof. destruct l; simpl; split; congruence. Qed.

Lemma updateQuote_does rt i context u st :
  locals_user (locals context) = Some u ->
  updateQuote.handler rt i context st
  = if owned st (updateQuote.collectionId i) (user_id u)
    then
      if quote_under st (updateQuote.id i) (updateQuote.collectionId i)
      then
        let p := Db.eq Quotes.id (updateQuote.id i) in
        let s := updateQuote.set rt i in
        (Fulfilled (mkEnvelope true
                      (quote_data (first (map s (filter p (quotes st)))))),
         mkStore (collections st)
           (map (fun r => if p r then s r else r) (quotes st)))
      else (Rejected quote_not_found, st)
    else (Rejected collection_not_found, st).
Proof.
  intros Hu; unfold updateQuote.handler.
  unfold bind at 1, lift; rewrite (requireUser_some _ _ Hu).
  destruct (owned st (updateQuote.collectionId i) (user_id u)) eqn:Ho;
    [|apply guard_step_rejected; exact Ho].
  rewrite (guard_then _ _ _ _ Ho).
  unfold bind at 1, Db.select_quotes.
  destruct (quote_under st (updateQuote.id i) (updateQuote.collectionId i))
    eqn:Hq.
  - destruct (first _) eqn:F.
    + reflexivity.
    + apply first_none_iff, quote_filter_under in F; congruence.
  - apply quote_filter_under in Hq; rewrite Hq; reflexivity.
Qed.

Lemma updateQuote_filtered_does rt i context u st :
  locals_user (locals context) = Some u ->
  updateQuote_collection_filtered rt i context st
  = if owned st (updateQuote.collectionId i) (user_id u)
    then
      if quote_under st (updateQuote.id i) (updateQuote.collectionId i)
      then
        let p := Db.and [Db.eq Quotes.id (updateQuote.id i);
                         Db.eq Quotes.collectionId (updateQuote.collectionId i)] in
        let s := updateQuote.set rt i in
        (Fulfilled (mkEnvelope true
                      (quote_data (first (map s (filter p (quotes st)))))),
         mkStore (collections st)
           (map (fun r => if p r then s r else r) (quotes st)))
      else (Rejected quote_not_found, st)
    else (Rejected collection_not_found, st).
Proof.
  intros Hu; unfold updateQuote_collection_filtered.
  unfold bind at 1, lift; rewrite (requireUser_some _ _ Hu).
  destruct (owned st (updateQuote.collectionId i) (user_id u)) eqn:Ho;
    [|apply guard_step_rejected; exact Ho].
  rewrite (guard_then _ _ _ _ Ho).
  unfold bind at 1, Db.select_quotes.
  destruct (quote_under st (updateQuote.id i) (updateQuote.collectionId i))
    eqn:Hq.
  - destruct (first _) eqn:F.
    + reflexivity.
    + apply first_none_iff, quote_filter_under in F; congruence.
  - apply quote_filter_under in Hq; rewrite Hq; reflexivity.
Qed.

Lemma updateCollection_filtered_does rt i context u st :
  locals_user (locals context) = Some u ->
  updateCollection_owner_filtered rt i context st
  = if owned st (updateCollection.id i) (user_id u)
    then
      let p := Db.and [Db.eq QuoteCollections.id (updateCollection.id i);
                       Db.eq QuoteCollections.userId (user_id u)] in
      let s := updateCollection.set rt i in
      (Fulfilled (mkEnvelope true
                    (collection_data (first (map s (filter p (collections st)))))),
       mkStore (map (fun r => if p r then s r else r) (collections st))
         (quotes st))
    else (Rejected collection_not_found, st).
Proof.
  intros Hu; unfold updateCollection_owner_filtered.
  unfold bind at 1, lift; rewrite (requireUser_some _ _ Hu).
  destruct (owned st (updateCollection.id i) (user_id u)) eqn:Ho;
    [|apply guard_step_rejected; exact Ho].
  rewrite (guard_then _ _ _ _ Ho); reflexivity.
Qed.

Lemma deleteQuote_does rt i context u st :
  locals_user (locals context) = Some u ->
  deleteQuote.handler rt i context st
  = if owned st (deleteQuote.collectionId i) (user_id u)
    then
      if quote_under st (deleteQuote.id i) (deleteQuote.collectionId i)
      then
        (Fulfilled (mkEnvelope true no_data),
         mkStore (collections st)
           (filter
              (fun r =>
                 negb (Db.and [Db.eq Quotes.id (deleteQuote.id i);
                               Db.eq Quotes.collectionId
                                 (deleteQuote.collectionId i)] r))
              (quotes st)))
      else (Rejected quote_not_found, st)
    else (Rejected collection_not_found, st).
Proof.
  intros Hu; unfold deleteQuote.handler.
  unfold bind at 1, lift; rewrite (requireUser_some _ _ Hu).
  destruct (owned st (deleteQuote.collectionId i) (user_id u)) eqn:Ho;
    [|apply guard_step_rejected; exact Ho].
  rewrite (guard_then _ _ _ _ Ho).
  unfold bind, Db.delete_quotes, Db.delete_where; cbv beta iota.
  destruct (quote_under st (deleteQuote.id i) (deleteQuote.collectionId i))
    eqn:Hq.
  - destruct (Nat.eqb _ 0) eqn:E; [|reflexivity].
    apply Nat.eqb_eq, length_zero_iff_nil, quote_filter_under in E.
    congruence.
  - apply quote_filter_under in Hq; unfold Db.select_where in Hq.
    rewrite Hq; cbn [length Nat.eqb]; unfold throw.
    rewrite (delete_nothing _ (quotes st)); [rewrite store_eta; reflexivity|].
    rewrite Hq; reflexivity.
Qed.

Lemma listQuotes_does rt i context u st :
  locals_user (locals context) = Some u ->
  listQuotes.handler rt (listQuotes.parse i) context st
  = if owned st (listQuotes.collectionId i) (user_id u)
    then
      let base := [Db.eq Quotes.collectionId (listQuotes.collectionId i);
                   Db.eq Quotes.userId (user_id u)] in
      let filters :=
        if Zod.or_default (listQuotes.favoritesOnly i) false
        then (base ++ [Db.eq_bool Quotes.isFavorite true])%list
        else base in
      let items := filter (Db.and filters) (quotes st) in
      (Fulfilled (mkEnvelope true (quote_items items (length items))), st)
    else (Rejected collection_not_found, st).
Proof.
  intros Hu; unfold listQuotes.handler.
  unfold bind at 1, lift; rewrite (requireUser_some _ _ Hu).
  cbn [listQuotes.parse listQuotes.p_collectionId listQuotes.p_favoritesOnly
       listQuotes.p_includePublic].
  destruct (owned st (listQuotes.collectionId i) (user_id u)) eqn:Ho;
    [|apply guard_step_rejected; exact Ho].
  rewrite (guard_then _ _ _ _ Ho).
  destruct (negb _); reflexivity.
Qed.

(** ** Updates with nothing to update *)

Lemma issues_reject rt context c st issue :
  In issue (call_issues c) ->
  server rt context c st = (Rejected (ActionInputError (call_issues c)), st).
Proof.
  intros H; apply server_invalid; unfold valid.
  destruct (call_issues c); [contradiction | reflexivity].
Qed.

(** C5: an updateCollection call providing none of name, description, icon,
    isDefault, and an updateQuote call providing none of text, attributedTo,
    mood, tags, language, isFavorite, isPublic, is rejected with the schema's
    issues, among them "At least one field must be provided to update.";
    this holds in every context and every store, which is returned as it was:
    neither the identity, nor the existence or ownership of the target, is
    looked at. *)
Theorem C5_empty_patch_rejected rt context st :
  (forall i,
      updateCollection.name i = None ->
      updateCollection.description i = None ->
      updateCollection.icon i = None ->
      updateCollection.isDefault i = None ->
      In (custom "At least one field must be provided to update.")
         (updateCollection.issues i)
      /\ server rt context (call_updateCollection i) st
         = (Rejected (ActionInputError (updateCollection.issues i)), st))
  /\ (forall i,
      updateQuote.text i = None ->
      updateQuote.attributedTo i = None ->
      updateQuote.mood i = None ->
      updateQuote.tags i = None ->
      updateQuote.language i = None ->
      updateQuote.isFavorite i = None ->
      updateQuote.isPublic i = None ->
      In (custom "At least one field must be provided to update.")
         (updateQuote.issues i)
      /\ server rt context (call_updateQuote i) st
         = (Rejected (ActionInputError (updateQuote.issues i)), st)).
Proof.
  split.
  - intros i Hn Hd Hi Hf.
    assert (Hin : In (custom "At least one field must be provided to update.")
                     (updateCollection.issues i)).
    { unfold updateCollection.issues, updateCollection.provided.
      rewrite Hn, Hd, Hi, Hf; cbn [Zod.defined orb Zod.refine Zod.optional_min1].
      apply in_or_app; right; left; reflexivity. }
    split; [exact Hin|].
    apply (issues_reject rt context (call_updateCollection i) st _ Hin).
  - intros i H1 H2 H3 H4 H5 H6 H7.
    assert (Hin : In (custom "At least one field must be provided to update.")
                     (updateQuote.issues i)).
    { unfold updateQuote.issues, updateQuote.provided.
      rewrite H1, H2, H3, H4, H5, H6, H7; cbn [Zod.defined orb Zod.refine].
      apply in_or_app; right; apply in_or_app; right; left; reflexivity. }
    split; [exact Hin|].
    apply (issues_reject rt context (call_updateQuote i) st _ Hin).
Qed.

(** Bob sends an empty patch for Alice's collection, and an empty patch for
    a quote that does not exist. *)
Lemma C5_empty_patch_rejected_witness :
  server (mkRuntime 5 "x") (signed_in "bob")
    (call_updateCollection (updateCollection.mk "c-1" None None None None))
    sample_store
  = (Rejected (ActionInputError
                 [custom "At least one field must be provided to update."]),
     sample_store)
  /\ server (mkRuntime 5 "x") (signed_in "bob")
       (call_updateQuote
          (updateQuote.mk "q-9" "c-9" None None None None None None None))
       sample_store
     = (Rejected (ActionInputError
                    [custom "At least one field must be provided to update."]),
        sample_store).
Proof.
  destruct (C5_empty_patch_rejected (mkRuntime 5 "x") (signed_in "bob")
              sample_store) as [HC HQ].
  split.
  - exact (proj2 (HC (updateCollection.mk "c-1" None None None None)
                     eq_refl eq_refl eq_refl eq_refl)).
  - exact (proj2 (HQ (updateQuote.mk "q-9" "c-9" None None None None None
                        None None)
                     eq_refl eq_refl eq_refl eq_refl eq_refl eq_refl eq_refl)).
Defined.

(** ** A quote id claimed under the wrong collection *)

(** C6 (as amended): for a signed-in caller who owns the stated collection,
    when no quote row has both the given id and that collectionId,
    updateQuote and deleteQuote on input that satisfies the schema are
    rejected with NOT_FOUND / "Quote not found.", and on input that violates
    the schema are rejected with the schema's validation issues, since the
    schema is applied before the handler; in both cases the store, hence any
    quote stored under that id in another collection, is left as it was. *)
Theorem C6_quote_not_under_collection rt context u st :
  locals_user (locals context) = Some u ->
  (forall i,
      owned st (updateQuote.collectionId i) (user_id u) = true ->
      quote_under st (updateQuote.id i) (updateQuote.collectionId i) = false ->
      server rt context (call_updateQuote i) st
      = (Rejected (if valid (call_updateQuote i)
                   then ActionError NOT_FOUND "Quote not found."
                   else ActionInputError (updateQuote.issues i)), st))
  /\ (forall i,
      owned st (deleteQuote.collectionId i) (user_id u) = true ->
      quote_under st (deleteQuote.id i) (deleteQuote.collectionId i) = false ->
      server rt context (call_deleteQuote i) st
      = (Rejected (if valid (call_deleteQuote i)
                   then ActionError NOT_FOUND "Quote not found."
                   else ActionInputError (deleteQuote.issues i)), st)).
Proof.
  intros Hu; split; intros i Ho Hq.
  - destruct (valid (call_updateQuote i)) eqn:Hv.
    + rewrite (server_valid _ _ _ Hv); cbn [handle].
      rewrite (updateQuote_does _ _ _ _ _ Hu), Ho, Hq; reflexivity.
    + apply (server_invalid rt context (call_updateQuote i) st Hv).
  - destruct (valid (call_deleteQuote i)) eqn:Hv.
    + rewrite (server_valid _ _ _ Hv); cbn [handle].
      rewrite (deleteQuote_does _ _ _ _ _ Hu), Ho, Hq; reflexivity.
    + apply (server_invalid rt context (call_deleteQuote i) st Hv).
Qed.

(** Alice owns both c-1 and c-2; q-1 lives under c-1 and is addressed
    under c-2. *)
Lemma C6_quote_not_under_collection_witness :
  quote_under sample_store "q-1" "c-1" = true
  /\ server (mkRuntime 5 "x") (signed_in "alice")
       (call_updateQuote
          (updateQuote.mk "q-1" "c-2" (Some "changed") None None None None
             None None))
       sample_store
     = (Rejected quote_not_found, sample_store)
  /\ server (mkRuntime 5 "x") (signed_in "alice")
       (call_deleteQuote (deleteQuote.mk "q-1" "c-2")) sample_store
     = (Rejected quote_not_found, sample_store).
Proof.
  destruct (C6_quote_not_under_collection (mkRuntime 5 "x")
              (signed_in "alice") (mkUser "alice") sample_store eq_refl)
    as [HU HD].
  split; [reflexivity|]. split.
  - exact (HU (updateQuote.mk "q-1" "c-2" (Some "changed") None None None
                 None None None) eq_refl eq_refl).
  - exact (HD (deleteQuote.mk "q-1" "c-2") eq_refl eq_refl).
Defined.

(** C6 (as stated) fails: Alice owns c-2 and no quote q-1 is stored under
    it, yet her updateQuote for (q-1, c-2) with no patchable field is
    rejected by the schema, not with NOT_FOUND; so is her deleteQuote with
    an empty id. *)
Lemma C6_counterexample :
  ~ (forall rt context u st,
        locals_user (locals context) = Some u ->
        (forall i,
            owned st (updateQuote.collectionId i) (user_id u) = true ->
            quote_under st (updateQuote.id i) (updateQuote.collectionId i)
            = false ->
            fst (server rt context (call_updateQuote i) st)
            = Rejected (ActionError NOT_FOUND "Quote not found."))
        /\ (forall i,
            owned st (deleteQuote.collectionId i) (user_id u) = true ->
            quote_under st (deleteQuote.id i) (deleteQuote.collectionId i)
            = false ->
            fst (server rt context (call_deleteQuote i) st)
            = Rejected (ActionError NOT_FOUND "Quote not found."))).
Proof.
  intros H.
  destruct (H (mkRuntime 5 "x") (signed_in "alice") (mkUser "alice")
              sample_store eq_refl) as [HU _].
  specialize (HU (updateQuote.mk "q-1" "c-2" None None None None None None
                    None) eq_refl eq_refl).
  vm_compute in HU; discriminate HU.
Qed.

(** ** Partial updates of a quote *)

Lemma server_fulfilled rt context c st env st' :
  server rt context c st = (Fulfilled env, st') ->
  valid c = true
  /\ handle rt context c st = (Fulfilled env, st')
  /\ exists u, locals_user (locals context) = Some u.
Proof.
  rewrite server_dispatch; destruct (valid c); [|discriminate].
  intros H; split; [reflexivity|]. split; [exact H|].
  destruct (locals_user (locals context)) as [u|] eqn:Hu; [exists u; reflexivity|].
  rewrite (handle_signed_out _ _ _ _ Hu) in H; discriminate.
Qed.

Lemma updateQuote_fulfilled rt context i st env st' :
  server rt context (call_updateQuote i) st = (Fulfilled env, st') ->
  st' = mkStore (collections st)
          (map (fun r => if Db.eq Quotes.id (updateQuote.id i) r
                         then updateQuote.set rt i r else r) (quotes st)).
Proof.
  intros H; apply server_fulfilled in H; destruct H as (_ & H & u & Hu).
  cbn [handle] in H; rewrite (updateQuote_does _ _ _ _ _ Hu) in H.
  destruct (owned _ _ _); [|discriminate].
  destruct (quote_under _ _ _); [|discriminate].
  injection H as _ <-; reflexivity.
Qed.

(** C4: after a successful updateQuote call that provides only mood (besides
    id and collectionId), every stored quote keeps its id, collectionId,
    userId, text, attributedTo, tags, language, isFavorite, isPublic and
    createdAt; the quote with the given id has the new mood and an updatedAt
    equal to the time of the call, and every other quote keeps these two as
    well.  The collections table is untouched. *)
Theorem C4_mood_only_update rt context i m st env st' :
  updateQuote.text i = None ->
  updateQuote.attributedTo i = None ->
  updateQuote.mood i = Some m ->
  updateQuote.tags i = None ->
  updateQuote.language i = None ->
  updateQuote.isFavorite i = None ->
  updateQuote.isPublic i = None ->
  server rt context (call_updateQuote i) st = (Fulfilled env, st') ->
  collections st' = collections st
  /\ length (quotes st') = length (quotes st)
  /\ forall n q, nth_error (quotes st) n = Some q ->
       exists q', nth_error (quotes st') n = Some q'
         /\ Quotes.id q' = Quotes.id q
         /\ Quotes.collectionId q' = Quotes.collectionId q
         /\ Quotes.userId q' = Quotes.userId q
         /\ Quotes.createdAt q' = Quotes.createdAt q
         /\ Quotes.text q' = Quotes.text q
         /\ Quotes.attributedTo q' = Quotes.attributedTo q
         /\ Quotes.tags q' = Quotes.tags q
         /\ Quotes.language q' = Quotes.language q
         /\ Quotes.isFavorite q' = Quotes.isFavorite q
         /\ Quotes.isPublic q' = Quotes.isPublic q
         /\ (if String.eqb (Quotes.id q) (updateQuote.id i)
             then Quotes.mood q' = Some m /\ Quotes.updatedAt q' = now rt
             else Quotes.mood q' = Quotes.mood q
                  /\ Quotes.updatedAt q' = Quotes.updatedAt q).
Proof.
  intros Ht Ha Hm Hg Hl Hf Hp H.
  apply updateQuote_fulfilled in H; subst st'; cbn [collections quotes].
  split; [reflexivity|]. split; [apply length_map|].
  intros n q Hn; rewrite nth_error_map, Hn; cbn [option_map].
  unfold Db.eq.
  destruct (String.eqb (Quotes.id q) (updateQuote.id i)).
  - eexists; split; [reflexivity|].
    unfold updateQuote.set; rewrite Ht, Ha, Hm, Hg, Hl, Hf, Hp.
    cbn; repeat split; reflexivity.
  - exists q; repeat split; reflexivity.
Qed.

Lemma C4_mood_only_update_witness :
  exists q',
    nth_error
      (quotes
         (snd (server (mkRuntime 2000 "x") (signed_in "alice")
                 (call_updateQuote
                    (updateQuote.mk "q-1" "c-1" None None (Some "calm") None
                       None None None))
                 sample_store))) 0 = Some q'
    /\ Quotes.text q' = "Keep going"
    /\ Quotes.mood q' = Some "calm"
    /\ Quotes.updatedAt q' = 2000%Z.
Proof.
  destruct (C4_mood_only_update (mkRuntime 2000 "x") (signed_in "alice")
              (updateQuote.mk "q-1" "c-1" None None (Some "calm") None None
                 None None)
              "calm" sample_store _ _
              eq_refl eq_refl eq_refl eq_refl eq_refl eq_refl eq_refl eq_refl)
    as (_ & _ & H).
  destruct (H 0 _ eq_refl)
    as (q' & H0 & _ & _ & _ & _ & Ht & _ & _ & _ & _ & _ & Hm & Hu).
  exists q'; repeat split; assumption.
Defined.

(** C9: an updateQuote input whose text is the empty string is accepted by
    the schema (given non-empty id and collectionId), and, sent by the owner
    of the collection for a quote stored under it, the call succeeds and
    leaves the quote with that id with an empty text; createQuote rejects an
    empty text with a validation issue on "text". *)
Theorem C9_update_allows_empty_text rt context u i st :
  locals_user (locals context) = Some u ->
  updateQuote.id i <> "" ->
  updateQuote.collectionId i <> "" ->
  updateQuote.text i = Some "" ->
  owned st (updateQuote.collectionId i) (user_id u) = true ->
  quote_under st (updateQuote.id i) (updateQuote.collectionId i) = true ->
  (valid (call_updateQuote i) = true
   /\ exists env st',
       server rt context (call_updateQuote i) st = (Fulfilled env, st')
       /\ (exists q', In q' (quotes st')
                      /\ Quotes.id q' = updateQuote.id i
                      /\ Quotes.collectionId q' = updateQuote.collectionId i)
       /\ (forall q', In q' (quotes st') ->
             Quotes.id q' = updateQuote.id i -> Quotes.text q' = ""))
  /\ (forall ci, createQuote.text ci = "" ->
        In (too_small "text") (createQuote.issues ci)
        /\ server rt context (call_createQuote ci) st
           = (Rejected (ActionInputError (createQuote.issues ci)), st)).
Proof.
  intros Hu Hid Hcid Ht Ho Hq.
  assert (Hv : valid (call_updateQuote i) = true).
  { unfold valid, call_issues, updateQuote.issues, updateQuote.provided,
      Zod.min1.
    apply String.eqb_neq in Hid, Hcid; rewrite Hid, Hcid, Ht; reflexivity. }
  split; [split; [exact Hv|] |].
  - rewrite (server_valid _ _ _ Hv); cbn [handle].
    rewrite (updateQuote_does _ _ _ _ _ Hu), Ho, Hq.
    do 2 eexists; split; [reflexivity|]. cbn [quotes]. split.
    + unfold quote_under in Hq; apply existsb_exists in Hq.
      destruct Hq as (q & Hin & Hb); apply andb_true_iff in Hb.
      destruct Hb as [Hb1 Hb2].
      exists (updateQuote.set rt i q); split.
      * apply in_map_iff; exists q; split; [|exact Hin].
        unfold Db.eq; rewrite Hb1; reflexivity.
      * apply String.eqb_eq in Hb1, Hb2; split; assumption.
    + intros q' Hin Hq'; apply in_map_iff in Hin.
      destruct Hin as (q & <- & _); unfold Db.eq in *.
      destruct (String.eqb (Quotes.id q) (updateQuote.id i)) eqn:E.
      * unfold updateQuote.set; rewrite Ht; reflexivity.
      * apply String.eqb_neq in E; contradiction.
  - intros ci Hc.
    assert (Hin : In (too_small "text") (createQuote.issues ci)).
    { unfold createQuote.issues; apply in_or_app; right.
      rewrite Hc; left; reflexivity. }
    split; [exact Hin|].
    apply (issues_reject rt context (call_createQuote ci) st _ Hin).
Qed.

(** Alice empties the text of the quote she created as "Keep going". *)
Lemma C9_update_allows_empty_text_witness :
  map Quotes.text (quotes sample_store) = ["Keep going"]
  /\ map Quotes.text
       (quotes
          (snd (server (mkRuntime 2000 "x") (signed_in "alice")
                  (call_updateQuote
                     (updateQuote.mk "q-1" "c-1" (Some "") None None None
                        None None None))
                  sample_store))) = [""]
  /\ valid (call_updateQuote
              (updateQuote.mk "q-1" "c-1" (Some "") None None None None None
                 None)) = true.
Proof.
  split; [reflexivity|]. split; [reflexivity|].
  refine (proj1 (proj1 (C9_update_allows_empty_text (mkRuntime 2000 "x")
                          (signed_in "alice") (mkUser "alice")
                          (updateQuote.mk "q-1" "c-1" (Some "") None None
                             None None None None)
                          sample_store eq_refl _ _ eq_refl eq_refl eq_refl)));
    discriminate.
Defined.

(** ** Listing favourites *)

Lemma and_snoc {R} (fs : list (R -> bool)) (f : R -> bool) (r : R) :
  Db.and (fs ++ [f]) r = Db.and fs r && f r.
Proof.
  unfold Db.and; rewrite forallb_app; cbn [forallb].
  rewrite andb_true_r; reflexivity.
Qed.

Lemma filter_twice {R} (f g : R -> bool) (t : list R) :
  filter (fun r => f r && g r) t = filter g (filter f t).
Proof.
  induction t as [|r t IH]; simpl; [reflexivity|].
  destruct (f r); simpl; [destruct (g r); rewrite IH; reflexivity | exact IH].
Qed.

Lemma eq_bool_true {R} (column : R -> bool) (r : R) :
  Db.eq_bool column true r = column r.
Proof. unfold Db.eq_bool; destruct (column r); reflexivity. Qed.

(** C8 (as amended): for a signed-in caller who owns the collection, the
    listing with favoritesOnly true is exactly the rows of the default
    listing whose isFavorite is true, in the same order; it is therefore
    included in the default listing, and equal to it when every listed row
    is a favourite.  Neither call changes the store, and total is the number
    of items. *)
Theorem C8_favorites_filter_default rt rt' context u cid includePublic st :
  locals_user (locals context) = Some u ->
  cid <> "" ->
  owned st cid (user_id u) = true ->
  exists all favs,
    server rt context (call_listQuotes (listQuotes.mk cid None None)) st
    = (Fulfilled (mkEnvelope true (quote_items all (length all))), st)
    /\ server rt' context
         (call_listQuotes (listQuotes.mk cid (Some true) includePublic)) st
       = (Fulfilled (mkEnvelope true (quote_items favs (length favs))), st)
    /\ favs = filter Quotes.isFavorite all
    /\ incl favs all.
Proof.
  intros Hu Hc Ho.
  assert (Hv : forall f p,
             valid (call_listQuotes (listQuotes.mk cid f p)) = true).
  { intros f p; unfold valid, call_issues, listQuotes.issues, Zod.min1.
    cbn [listQuotes.collectionId].
    apply String.eqb_neq in Hc; rewrite Hc; reflexivity. }
  do 2 eexists. split; [|split; [|split]].
  - rewrite (server_valid _ _ _ (Hv None None)); cbn [handle].
    rewrite (listQuotes_does _ _ _ _ _ Hu); cbn [listQuotes.collectionId].
    rewrite Ho; reflexivity.
  - rewrite (server_valid _ _ _ (Hv (Some true) includePublic)); cbn [handle].
    rewrite (listQuotes_does _ _ _ _ _ Hu); cbn [listQuotes.collectionId].
    rewrite Ho; reflexivity.
  - cbn [listQuotes.favoritesOnly Zod.or_default].
    rewrite <- filter_twice; apply filter_ext; intros q.
    rewrite and_snoc, eq_bool_true; reflexivity.
  - cbn [listQuotes.favoritesOnly Zod.or_default].
    intros q Hq; apply filter_In in Hq; destruct Hq as [Hin Hq].
    apply filter_In; split; [exact Hin|].
    rewrite and_snoc in Hq; apply andb_true_iff in Hq; tauto.
Qed.

Lemma C8_favorites_filter_default_witness :
  listed (fst (server (mkRuntime 5 "x") (signed_in "alice")
                 (call_listQuotes (listQuotes.mk "c-1" (Some true) None))
                 sample_store)) = Some [].
Proof.
  destruct (C8_favorites_filter_default (mkRuntime 5 "x") (mkRuntime 5 "x")
              (signed_in "alice") (mkUser "alice") "c-1" None sample_store
              eq_refl)
    as (all & favs & Hall & Hfavs & E & _);
    [discriminate | reflexivity |].
  rewrite Hfavs; cbn [fst listed]; f_equal.
  rewrite E; clear E Hfavs.
  vm_compute in Hall; injection Hall as <-; reflexivity.
Defined.

(** C8 (as stated) fails: once Alice's only quote is a favourite, the
    favourites listing equals the default listing, so it is not a strict
    subset of it. *)
Lemma C8_counterexample :
  ~ (forall rt context cid st all favs,
        listed (fst (server rt context
                       (call_listQuotes (listQuotes.mk cid None None)) st))
        = Some all ->
        listed (fst (server rt context
                       (call_listQuotes (listQuotes.mk cid (Some true) None))
                       st))
        = Some favs ->
        strict_subset favs all).
Proof.
  intros H.
  destruct (H (mkRuntime 5 "x") (signed_in "alice") "c-1" favourite_store
              _ _ eq_refl eq_refl) as [_ Hn].
  apply Hn; intros q Hq; exact Hq.
Qed.

(** ** The final write and the ownership filter *)

(** Under a primary key, the rows selected by key are the guarded row
    alone. *)
Lemma filter_by_key {R} (pk : R -> string) (t : list R) (r : R) :
  NoDup (map pk t) -> In r t ->
  filter (fun x => String.eqb (pk x) (pk r)) t = [r].
Proof.
  induction t as [|x t IH]; simpl; intros ND Hin; [contradiction|].
  inversion ND as [|? ? Hx ND']; subst.
  destruct Hin as [->|Hin].
  - rewrite String.eqb_refl; f_equal.
    apply filter_nil_iff, not_true_iff_false; intros E.
    apply existsb_exists in E; destruct E as (y & Hy & E).
    apply String.eqb_eq in E; apply Hx; rewrite <- E; apply in_map; exact Hy.
  - destruct (String.eqb (pk x) (pk r)) eqn:E; [|apply IH; assumption].
    apply String.eqb_eq in E; exfalso; apply Hx; rewrite E.
    apply in_map; exact Hin.
Qed.

Lemma owned_row st cid uid :
  owned st cid uid = true ->
  exists c, In c (collections st)
            /\ QuoteCollections.id c = cid /\ QuoteCollections.userId c = uid.
Proof.
  unfold owned; intros H; apply existsb_exists in H.
  destruct H as (c & Hin & Hb); apply andb_true_iff in Hb.
  destruct Hb as [H1 H2]; apply String.eqb_eq in H1, H2; eauto.
Qed.

Lemma quote_under_row st id cid :
  quote_under st id cid = true ->
  exists q, In q (quotes st)
            /\ Quotes.id q = id /\ Quotes.collectionId q = cid.
Proof.
  unfold quote_under; intros H; apply existsb_exists in H.
  destruct H as (q & Hin & Hb); apply andb_true_iff in Hb.
  destruct Hb as [H1 H2]; apply String.eqb_eq in H1, H2; eauto.
Qed.

(** Once the guard has passed, filtering by id and filtering by id and owner
    select the same collection rows. *)
Lemma collection_filters_agree st cid uid :
  NoDup (map QuoteCollections.id (collections st)) ->
  owned st cid uid = true ->
  forall r, In r (collections st) ->
    Db.eq QuoteCollections.id cid r
    = Db.and [Db.eq QuoteCollections.id cid;
              Db.eq QuoteCollections.userId uid] r.
Proof.
  intros ND Ho r Hr; rewrite and2_true; unfold Db.eq.
  destruct (String.eqb (QuoteCollections.id r) cid) eqn:E; [|reflexivity].
  apply String.eqb_eq in E.
  destruct (owned_row _ _ _ Ho) as (c & Hc & Hid & Hown).
  assert (r = c) by
    (apply (pk_determines QuoteCollections.id (collections st)); congruence).
  subst r; rewrite Hown, String.eqb_refl; reflexivity.
Qed.

Lemma quote_filters_agree st id cid :
  NoDup (map Quotes.id (quotes st)) ->
  quote_under st id cid = true ->
  forall r, In r (quotes st) ->
    Db.eq Quotes.id id r
    = Db.and [Db.eq Quotes.id id; Db.eq Quotes.collectionId cid] r.
Proof.
  intros ND Hq r Hr; rewrite and2_true; unfold Db.eq.
  destruct (String.eqb (Quotes.id r) id) eqn:E; [|reflexivity].
  apply String.eqb_eq in E.
  destruct (quote_under_row _ _ _ Hq) as (q & Hin & Hid & Hcid).
  assert (r = q) by
    (apply (pk_determines Quotes.id (quotes st)); congruence).
  subst r; rewrite Hcid, String.eqb_refl; reflexivity.
Qed.

(** C10: on a store that respects the primary keys, updateCollection and
    updateQuote return the same outcome and the same store as the handlers
    whose final UPDATE also carries the filter of the preceding read (id and
    userId, respectively id and collectionId); and when the guard passes
    (and the quote lookup finds a row) the WHERE clause on the id alone
    selects exactly one row, the one that was checked. *)
Theorem C10_final_write_filter_redundant rt context st :
  pk_unique st = true ->
  (forall i,
      updateCollection.handler rt i context st
      = updateCollection_owner_filtered rt i context st)
  /\ (forall i,
      updateQuote.handler rt i context st
      = updateQuote_collection_filtered rt i context st)
  /\ (forall i u,
      locals_user (locals context) = Some u ->
      owned st (updateCollection.id i) (user_id u) = true ->
      exists c,
        filter (Db.eq QuoteCollections.id (updateCollection.id i))
          (collections st) = [c]
        /\ QuoteCollections.userId c = user_id u)
  /\ (forall i,
      quote_under st (updateQuote.id i) (updateQuote.collectionId i) = true ->
      exists q,
        filter (Db.eq Quotes.id (updateQuote.id i)) (quotes st) = [q]
        /\ Quotes.collectionId q = updateQuote.collectionId i).
Proof.
  intros K; apply pk_unique_NoDup in K; destruct K as [NDc NDq].
  split; [|split; [|split]].
  - intros i.
    destruct (locals_user (locals context)) as [u|] eqn:Hu.
    + rewrite (updateCollection_does _ _ _ _ _ Hu),
        (updateCollection_filtered_does _ _ _ _ _ Hu).
      destruct (owned st (updateCollection.id i) (user_id u)) eqn:Ho;
        [|reflexivity].
      cbv zeta.
      pose proof (collection_filters_agree _ _ _ NDc Ho) as A.
      pose proof (update_agree (updateCollection.set rt i) _ _ _ A) as U.
      unfold Db.update_where in U; injection U as U1 U2.
      rewrite U1, U2; reflexivity.
    + unfold updateCollection.handler, updateCollection_owner_filtered,
        bind, lift; rewrite (requireUser_none _ Hu); reflexivity.
  - intros i.
    destruct (locals_user (locals context)) as [u|] eqn:Hu.
    + rewrite (updateQuote_does _ _ _ _ _ Hu),
        (updateQuote_filtered_does _ _ _ _ _ Hu).
      destruct (owned st (updateQuote.collectionId i) (user_id u));
        [|reflexivity].
      destruct (quote_under st (updateQuote.id i) (updateQuote.collectionId i))
        eqn:Hq; [|reflexivity].
      cbv zeta.
      pose proof (quote_filters_agree _ _ _ NDq Hq) as A.
      pose proof (update_agree (updateQuote.set rt i) _ _ _ A) as U.
      unfold Db.update_where in U; injection U as U1 U2.
      rewrite U1, U2; reflexivity.
    + unfold updateQuote.handler, updateQuote_collection_filtered,
        bind, lift; rewrite (requireUser_none _ Hu); reflexivity.
  - intros i u _ Ho.
    destruct (owned_row _ _ _ Ho) as (c & Hc & Hid & Hown).
    exists c; split; [|exact Hown].
    rewrite <- Hid; apply (filter_by_key QuoteCollections.id); assumption.
  - intros i Hq.
    destruct (quote_under_row _ _ _ Hq) as (q & Hin & Hid & Hcid).
    exists q; split; [|exact Hcid].
    rewrite <- Hid; apply (filter_by_key Quotes.id); assumption.
Qed.

Lemma C10_final_write_filter_redundant_witness :
  updateQuote.handler (mkRuntime 2000 "x")
    (updateQuote.mk "q-1" "c-1" None None (Some "calm") None None None None)
    (signed_in "alice") sample_store
  = updateQuote_collection_filtered (mkRuntime 2000 "x")
      (updateQuote.mk "q-1" "c-1" None None (Some "calm") None None None None)
      (signed_in "alice") sample_store.
Proof.
  exact (proj1 (proj2 (C10_final_write_filter_redundant (mkRuntime 2000 "x")
                         (signed_in "alice") sample_store eq_refl))
           (updateQuote.mk "q-1" "c-1" None None (Some "calm") None None None
              None)).
Defined.

(** ** What a request can do to the store *)

Lemma fresh_key {R} (pk : R -> string) (k : string) (t : list R) :
  existsb (fun r => String.eqb (pk r) k) t = false -> ~ In k (map pk t).
Proof.
  intros H Hin; apply in_map_iff in Hin; destruct Hin as (r & E & Hr).
  apply not_true_iff_false in H; apply H.
  apply existsb_exists; exists r; split; [exact Hr|].
  apply String.eqb_eq; exact E.
Qed.

Lemma serve_effect rq st : Effect rq st (snd (serve rq st)).
Proof.
  destruct rq as [[rt context] c]; cbn [serve].
  rewrite server_dispatch; destruct (valid c);
    [|apply effect_none; reflexivity].
  destruct (locals_user (locals context)) as [u|] eqn:Hu;
    [|rewrite (handle_signed_out _ _ _ _ Hu); apply effect_none; reflexivity].
  destruct c; cbn [handle].
  - rewrite (createCollection_does _ _ _ _ _ Hu); cbv zeta.
    destruct (existsb _ (collections st)) eqn:E;
      [apply effect_none; reflexivity|].
    eapply effect_new_collection; [|reflexivity].
    apply fresh_key; exact E.
  - rewrite (updateCollection_does _ _ _ _ _ Hu).
    destruct (owned _ _ _); [|apply effect_none; reflexivity].
    eapply effect_patch_collections; reflexivity.
  - rewrite (listCollections_does _ _ _ _ _ Hu).
    apply effect_none; reflexivity.
  - rewrite (createQuote_does _ _ _ _ _ Hu).
    destruct (owned _ _ _) eqn:Ho; [|apply effect_none; reflexivity].
    cbv zeta.
    destruct (existsb _ (quotes st)) eqn:E;
      [apply effect_none; reflexivity|].
    eapply (effect_new_quote _ _ _ rt context i u);
      [reflexivity | exact Hu | | | exact Ho | | reflexivity];
      [reflexivity | reflexivity |].
    apply fresh_key; exact E.
  - rewrite (updateQuote_does _ _ _ _ _ Hu).
    destruct (owned _ _ _); [|apply effect_none; reflexivity].
    destruct (quote_under _ _ _); [|apply effect_none; reflexivity].
    eapply effect_patch_quotes; reflexivity.
  - rewrite (deleteQuote_does _ _ _ _ _ Hu).
    destruct (owned _ _ _); [|apply effect_none; reflexivity].
    destruct (quote_under _ _ _); [|apply effect_none; reflexivity].
    eapply effect_delete_quotes; reflexivity.
  - rewrite (listQuotes_does _ _ _ _ _ Hu).
    destruct (owned _ _ _); apply effect_none; reflexivity.
Qed.

(** The patches leave the identifying columns alone. *)
Lemma updateCollection_set_keeps rt i r :
  QuoteCollections.id (updateCollection.set rt i r) = QuoteCollections.id r
  /\ QuoteCollections.userId (updateCollection.set rt i r)
     = QuoteCollections.userId r.
Proof. split; reflexivity. Qed.

Lemma updateQuote_set_keeps rt i r :
  Quotes.id (updateQuote.set rt i r) = Quotes.id r
  /\ Quotes.userId (updateQuote.set rt i r) = Quotes.userId r
  /\ Quotes.collectionId (updateQuote.set rt i r) = Quotes.collectionId r.
Proof. repeat split; reflexivity. Qed.

Lemma map_patch_column {R C} (col : R -> C) (s : R -> R) (p : R -> bool)
    (t : list R) :
  (forall r, col (s r) = col r) ->
  map col (map (fun r => if p r then s r else r) t) = map col t.
Proof.
  intros H; rewrite map_map; apply map_ext; intros r.
  destruct (p r); [apply H | reflexivity].
Qed.

Lemma NoDup_map_filter {R} (pk : R -> string) (p : R -> bool) (t : list R) :
  NoDup (map pk t) -> NoDup (map pk (filter p t)).
Proof.
  induction t as [|r t IH]; simpl; intros ND; [constructor|].
  inversion ND as [|? ? Hr ND']; subst.
  destruct (p r); simpl; [constructor|]; auto.
  intros Hin; apply Hr; apply in_map_iff in Hin.
  destruct Hin as (x & E & Hx); apply filter_In in Hx.
  rewrite <- E; apply in_map; tauto.
Qed.

Lemma NoDup_snoc (k : string) (keys : list string) :
  NoDup keys -> ~ In k keys -> NoDup (keys ++ [k]).
Proof.
  intros ND Hk; apply NoDup_app; [exact ND | repeat constructor; intros [] |].
  intros x Hx [<-|[]]; contradiction.
Qed.

Lemma effect_keys rq st st' :
  Effect rq st st' -> pk_unique st = true -> pk_unique st' = true.
Proof.
  intros E K; apply pk_unique_NoDup in K; destruct K as [Kc Kq].
  apply pk_unique_NoDup.
  destruct E as [-> | c Hc -> | rt i p -> | rt context i u q _ _ _ _ _ Hq ->
                | rt i p -> | p ->]; cbn [collections quotes].
  - tauto.
  - split; [|exact Kq]. rewrite map_app; apply NoDup_snoc; assumption.
  - split; [|exact Kq]. rewrite map_patch_column; [exact Kc | reflexivity].
  - split; [exact Kc|]. rewrite map_app; apply NoDup_snoc; assumption.
  - split; [exact Kc|]. rewrite map_patch_column; [exact Kq | reflexivity].
  - split; [exact Kc|]. apply NoDup_map_filter; exact Kq.
Qed.

Lemma owned_iff st cid uid :
  owned st cid uid = true <->
  exists c, In c (collections st)
            /\ QuoteCollections.id c = cid /\ QuoteCollections.userId c = uid.
Proof.
  split; [apply owned_row|].
  intros (c & Hin & <- & <-); unfold owned.
  apply existsb_exists; exists c; split; [exact Hin|].
  rewrite !String.eqb_refl; reflexivity.
Qed.

Lemma owner_consistent_iff st :
  owner_consistent st = true <->
  forall q, In q (quotes st) ->
    owned st (Quotes.collectionId q) (Quotes.userId q) = true.
Proof. unfold owner_consistent; apply forallb_forall. Qed.

Lemma effect_keeps_owned rq st st' cid uid :
  Effect rq st st' -> owned st cid uid = true -> owned st' cid uid = true.
Proof.
  intros E H; apply owned_iff in H; destruct H as (c & Hin & Hid & Hown).
  apply owned_iff.
  destruct E as [-> | c' _ -> | rt i p -> | rt context i u q _ _ _ _ _ _ ->
                | rt i p -> | p ->]; cbn [collections];
    try (exists c; tauto).
  - exists c; split; [apply in_or_app; left; exact Hin | tauto].
  - exists (if p c then updateCollection.set rt i c else c); split.
    + apply (in_map (fun r => if p r then updateCollection.set rt i r else r));
        exact Hin.
    + destruct (p c); tauto.
Qed.

Lemma effect_owner rq st st' :
  Effect rq st st' ->
  owner_consistent st = true -> owner_consistent st' = true.
Proof.
  intros E H; rewrite owner_consistent_iff in *.
  intros q' Hq'.
  assert (Old : forall q, In q (quotes st) ->
                  owned st' (Quotes.collectionId q) (Quotes.userId q) = true)
    by (intros q Hq; apply (effect_keeps_owned rq st); auto).
  pose proof E as E'.
  destruct E as [-> | c' _ -> | rt i p -> | rt context i u q _ _ Hu Hc Ho _ ->
                | rt i p -> | p ->]; cbn [quotes] in *; auto.
  - apply in_app_or in Hq'; destruct Hq' as [Hq'|[<-|[]]]; [auto|].
    rewrite Hu, Hc; apply (effect_keeps_owned _ _ _ _ _ E'); exact Ho.
  - apply in_map_iff in Hq'; destruct Hq' as (q & <- & Hq).
    destruct (p q); [|auto]. apply (Old q Hq).
  - apply filter_In in Hq'; destruct Hq' as [Hq' _]; auto.
Qed.

(** Rows that were stored keep their owner and their collection. *)
Lemma effect_identity rq st st' q q' :
  Effect rq st st' -> pk_unique st = true ->
  In q (quotes st) -> In q' (quotes st') -> Quotes.id q' = Quotes.id q ->
  Quotes.userId q' = Quotes.userId q
  /\ Quotes.collectionId q' = Quotes.collectionId q.
Proof.
  intros E K Hq Hq' Hid; apply pk_unique_NoDup in K; destruct K as [_ Kq].
  assert (Same : forall x, In x (quotes st) -> Quotes.id x = Quotes.id q ->
                   x = q)
    by (intros x Hx Ex; apply (pk_determines Quotes.id (quotes st)); auto).
  destruct E as [-> | c' _ -> | rt i p -> | rt context i u q0 _ _ _ _ _ Hf ->
                | rt i p -> | p ->]; cbn [quotes] in *.
  - rewrite (Same q' Hq' Hid); tauto.
  - rewrite (Same q' Hq' Hid); tauto.
  - rewrite (Same q' Hq' Hid); tauto.
  - apply in_app_or in Hq'; destruct Hq' as [Hq'|[<-|[]]].
    + rewrite (Same q' Hq' Hid); tauto.
    + exfalso; apply Hf; rewrite Hid; apply in_map; exact Hq.
  - apply in_map_iff in Hq'; destruct Hq' as (x & <- & Hx).
    destruct (p x).
    + rewrite <- (Same x Hx Hid); tauto.
    + rewrite (Same x Hx Hid); tauto.
  - apply filter_In in Hq'; destruct Hq' as [Hq' _].
    rewrite (Same q' Hq' Hid); tauto.
Qed.

(** A row whose id was not stored before comes from createQuote, owned by
    the caller, under a collection the caller owns. *)
Lemma effect_creation rq st st' q' :
  Effect rq st st' ->
  In q' (quotes st') ->
  (forall q, In q (quotes st) -> Quotes.id q <> Quotes.id q') ->
  exists rt context i u,
    rq = (rt, context, call_createQuote i)
    /\ locals_user (locals context) = Some u
    /\ Quotes.userId q' = user_id u
    /\ Quotes.collectionId q' = createQuote.collectionId i
    /\ owned st (Quotes.collectionId q') (Quotes.userId q') = true.
Proof.
  intros E Hq' New.
  destruct E as [-> | c' _ -> | rt i p -> | rt context i u q0 -> Hu Hown Hc Ho _ ->
                | rt i p -> | p ->]; cbn [quotes] in *;
    try (exfalso; apply (New q' Hq'); reflexivity).
  - apply in_app_or in Hq'; destruct Hq' as [Hq'|[<-|[]]];
      [exfalso; apply (New q' Hq'); reflexivity|].
    exists rt, context, i, u; rewrite Hown, Hc; auto.
  - apply in_map_iff in Hq'; destruct Hq' as (x & <- & Hx).
    exfalso; apply (New x Hx); destruct (p x); reflexivity.
  - apply filter_In in Hq'; destruct Hq' as [Hq' _].
    exfalso; apply (New q' Hq'); reflexivity.
Qed.

Lemma run_snoc trace rq st :
  run (trace ++ [rq]) st = snd (serve rq (run trace st)).
Proof. unfold run; rewrite fold_left_app; reflexivity. Qed.

Lemma run_invariants trace st :
  pk_unique st = true -> owner_consistent st = true ->
  pk_unique (run trace st) = true /\ owner_consistent (run trace st) = true.
Proof.
  intros K O; induction trace as [|rq trace IH] using rev_ind;
    [split; assumption|].
  destruct IH as [IK IO]; rewrite run_snoc.
  pose proof (serve_effect rq (run trace st)) as E.
  split; [apply (effect_keys _ _ _ E IK) | apply (effect_owner _ _ _ E IO)].
Qed.

(** C2: in every store reached from the empty one by serving requests, the
    ids of each table are pairwise distinct and every quote's userId is the
    userId of the collection row carrying the quote's collectionId; serving
    one more request leaves the userId and collectionId of every stored
    quote as they were, and a quote whose id is new was inserted by
    createQuote with the caller's id as userId, under a collection that the
    guard found owned by that caller; the patch of updateQuote writes neither
    column. *)
Theorem C2_owner_invariant (trace : list Request) :
  let st := run trace empty_store in
  pk_unique st = true
  /\ owner_consistent st = true
  /\ (forall q c,
        In q (quotes st) -> In c (collections st) ->
        QuoteCollections.id c = Quotes.collectionId q ->
        Quotes.userId q = QuoteCollections.userId c)
  /\ (forall rq q q',
        In q (quotes st) -> In q' (quotes (snd (serve rq st))) ->
        Quotes.id q' = Quotes.id q ->
        Quotes.userId q' = Quotes.userId q
        /\ Quotes.collectionId q' = Quotes.collectionId q)
  /\ (forall rq q',
        In q' (quotes (snd (serve rq st))) ->
        (forall q, In q (quotes st) -> Quotes.id q <> Quotes.id q') ->
        exists rt context i u,
          rq = (rt, context, call_createQuote i)
          /\ locals_user (locals context) = Some u
          /\ Quotes.userId q' = user_id u
          /\ Quotes.collectionId q' = createQuote.collectionId i
          /\ owned st (Quotes.collectionId q') (Quotes.userId q') = true)
  /\ (forall rt i r,
        Quotes.userId (updateQuote.set rt i r) = Quotes.userId r
        /\ Quotes.collectionId (updateQuote.set rt i r)
           = Quotes.collectionId r).
Proof.
  cbv zeta.
  destruct (run_invariants trace empty_store eq_refl eq_refl) as [K O].
  split; [exact K|]. split; [exact O|]. split; [|split; [|split]].
  - intros q c Hq Hc Hid.
    pose proof (proj1 (owner_consistent_iff _) O q Hq) as Ho.
    apply owned_row in Ho; destruct Ho as (c0 & Hc0 & Hid0 & Hown0).
    apply pk_unique_NoDup in K; destruct K as [Kc _].
    assert (c = c0) by
      (apply (pk_determines QuoteCollections.id
                (collections (run trace empty_store))); congruence).
    subst c0; symmetry; exact Hown0.
  - intros rq q q' Hq Hq' Hid.
    apply (effect_identity rq _ _ q q' (serve_effect rq _) K Hq Hq' Hid).
  - intros rq q' Hq' New.
    apply (effect_creation rq _ _ q' (serve_effect rq _) Hq' New).
  - intros rt i r; split; reflexivity.
Qed.

Lemma C2_owner_invariant_witness :
  owner_consistent sample_store = true
  /\ owner_consistent favourite_store = true.
Proof.
  split.
  - exact (proj1 (proj2 (C2_owner_invariant sample_trace))).
  - exact (proj1 (proj2 (C2_owner_invariant
                           (sample_trace ++
                            [ (mkRuntime 1004 "unused", signed_in "alice",
                               call_updateQuote
                                 (updateQuote.mk "q-1" "c-1" None None None
                                    None None (Some true) None)) ])))).
Defined.

(** * Further properties of the actions *)

(** ** The input schemas *)

Lemma min1_nil path value : Zod.min1 path value = [] <-> value <> "".
Proof.
  unfold Zod.min1; destruct (String.eqb value "") eqn:E.
  - apply String.eqb_eq in E; split; [discriminate | contradiction].
  - apply String.eqb_neq in E; tauto.
Qed.

Lemma valid_iff c : valid c = true <-> call_issues c = [].
Proof. unfold valid; destruct (call_issues c); split; congruence. Qed.

Lemma app_nil_iff {A} (l l' : list A) : (l ++ l' = [])%list <-> l = [] /\ l' = [].
Proof.
  split; [apply app_eq_nil | intros [-> ->]; reflexivity].
Qed.

Lemma handle_not_input_error rt context c st :
  input_error (fst (handle rt context c st)) = false.
Proof.
  destruct (locals_user (locals context)) as [u|] eqn:Hu;
    [|rewrite (handle_signed_out _ _ _ _ Hu); reflexivity].
  destruct c; cbn [handle].
  - rewrite (createCollection_does _ _ _ _ _ Hu); cbv zeta.
    destruct (existsb _ _); reflexivity.
  - rewrite (updateCollection_does _ _ _ _ _ Hu).
    destruct (owned _ _ _); reflexivity.
  - rewrite (listCollections_does _ _ _ _ _ Hu); reflexivity.
  - rewrite (createQuote_does _ _ _ _ _ Hu).
    destruct (owned _ _ _); [|reflexivity].
    cbv zeta; destruct (existsb _ _); reflexivity.
  - rewrite (updateQuote_does _ _ _ _ _ Hu).
    destruct (owned _ _ _); [|reflexivity].
    destruct (quote_under _ _ _); reflexivity.
  - rewrite (deleteQuote_does _ _ _ _ _ Hu).
    destruct (owned _ _ _); [|reflexivity].
    destruct (quote_under _ _ _); reflexivity.
  - rewrite (listQuotes_does _ _ _ _ _ Hu).
    destruct (owned _ _ _); reflexivity.
Qed.

(** X2:
    A call is rejected with the schema's issues exactly when its input is
    invalid: no handler raises a validation error of its own, and no invalid
    input reaches a handler, whatever the context and the store. *)
Theorem input_error_iff_invalid rt context c st :
  input_error (fst (server rt context c st)) = negb (valid c).
Proof.
  rewrite server_dispatch; destruct (valid c); cbn [negb].
  - apply handle_not_input_error.
  - reflexivity.
Qed.

(** ** The ownership guard on a keyed table *)

(** X3:
    With unique collection ids, the guard returns a row exactly when that row
    is stored with the given id and owner, rejects with NOT_FOUND exactly
    when no stored row has both, and leaves the store as it is. *)
Theorem getOwnedCollection_sound_complete st cid uid :
  pk_unique st = true ->
  (forall c,
      getOwnedCollection cid uid st = (Fulfilled c, st)
      <-> In c (collections st)
          /\ QuoteCollections.id c = cid /\ QuoteCollections.userId c = uid)
  /\ (getOwnedCollection cid uid st = (Rejected collection_not_found, st)
      <-> forall c, In c (collections st) ->
            ~ (QuoteCollections.id c = cid /\ QuoteCollections.userId c = uid))
  /\ snd (getOwnedCollection cid uid st) = st.
Proof.
  intros K; apply pk_unique_NoDup in K; destruct K as [Kc _].
  split; [|split; [|apply guard_reads_only]].
  - intros c; split.
    + intros H.
      destruct (owned st cid uid) eqn:Ho.
      * destruct (guard_passes _ _ _ Ho) as (c' & E & Hc').
        rewrite E in H; injection H as <-; exact Hc'.
      * rewrite (guard_rejects _ _ _ Ho) in H; discriminate.
    + intros (Hin & Hid & Hown).
      assert (Ho : owned st cid uid = true) by (apply owned_iff; eauto).
      destruct (guard_passes _ _ _ Ho) as (c' & E & Hin' & Hid' & _).
      rewrite E; repeat f_equal.
      apply (pk_determines QuoteCollections.id (collections st)); congruence.
  - split.
    + intros H c Hin [Hid Hown].
      assert (Ho : owned st cid uid = true) by (apply owned_iff; eauto).
      destruct (guard_passes _ _ _ Ho) as (c' & E & _).
      rewrite E in H; discriminate.
    + intros H; apply guard_rejects.
      destruct (owned st cid uid) eqn:Ho; [|reflexivity].
      apply owned_row in Ho; destruct Ho as (c & Hin & Hid & Hown).
      exfalso; apply (H c Hin); split; assumption.
Qed.

Lemma getOwnedCollection_sound_complete_witness :
  fst (getOwnedCollection "c-1" "alice" sample_store)
  = Fulfilled (QuoteCollections.mk "c-1" "alice" "Motivation" None None false
                 1000 1000)
  /\ getOwnedCollection "c-1" "bob" sample_store
     = (Rejected collection_not_found, sample_store).
Proof.
  destruct (getOwnedCollection_sound_complete sample_store "c-1" "bob" eq_refl)
    as (_ & H & _).
  split; [reflexivity|].
  apply H; intros c Hin [Hid Hown].
  cbn in Hin; destruct Hin as [<-|[<-|[<-|[]]]]; discriminate.
Defined.

(** ** Ownership is required, and exclusive *)

(** X4:
    A guarded action that succeeds was called with valid input by a
    signed-in user who owns the collection it names. *)
Theorem fulfilled_requires_ownership rt context c cid st env st' :
  guarded_collection c = Some cid ->
  server rt context c st = (Fulfilled env, st') ->
  valid c = true
  /\ exists u, locals_user (locals context) = Some u
               /\ owned st cid (user_id u) = true.
Proof.
  intros Hg H; apply server_fulfilled in H; destruct H as (Hv & H & u & Hu).
  split; [exact Hv|]. exists u; split; [exact Hu|].
  destruct (owned st cid (user_id u)) eqn:Ho; [reflexivity|].
  rewrite (handle_guard_rejects rt context u c cid st Hu Hg Ho) in H.
  discriminate.
Qed.

Lemma fulfilled_requires_ownership_witness :
  valid (call_deleteQuote (deleteQuote.mk "q-1" "c-1")) = true
  /\ exists u, locals_user (locals (signed_in "alice")) = Some u
               /\ owned sample_store "c-1" (user_id u) = true.
Proof.
  apply (fulfilled_requires_ownership (mkRuntime 5 "x") (signed_in "alice")
           (call_deleteQuote (deleteQuote.mk "q-1" "c-1")) "c-1" sample_store
           _ _ eq_refl eq_refl).
Defined.

Lemma one_owner st cid uid uid' :
  pk_unique st = true ->
  owned st cid uid = true -> owned st cid uid' = true -> uid = uid'.
Proof.
  intros K H H'; apply pk_unique_NoDup in K; destruct K as [Kc _].
  apply owned_row in H, H'.
  destruct H as (c & Hc & Hid & Hown), H' as (c' & Hc' & Hid' & Hown').
  assert (c = c') by
    (apply (pk_determines QuoteCollections.id (collections st)); congruence).
  congruence.
Qed.

(** X5:
    With unique collection ids a collection has one owner: every guarded
    action called (with valid input) by any other signed-in user on that
    collection is rejected with NOT_FOUND / "Collection not found." and the
    store is untouched. *)
Theorem foreign_collection_not_found rt context u c cid owner st :
  pk_unique st = true ->
  locals_user (locals context) = Some u ->
  valid c = true ->
  guarded_collection c = Some cid ->
  owned st cid owner = true ->
  user_id u <> owner ->
  server rt context c st = (Rejected collection_not_found, st).
Proof.
  intros K Hu Hv Hg Ho Hne.
  rewrite (server_valid _ _ _ Hv).
  apply (handle_guard_rejects rt context u c cid st Hu Hg).
  destruct (owned st cid (user_id u)) eqn:Ho'; [|reflexivity].
  exfalso; apply Hne; apply (one_owner st cid _ _ K Ho' Ho).
Qed.

Lemma foreign_collection_not_found_witness :
  server (mkRuntime 5 "x") (signed_in "bob")
    (call_createQuote
       (createQuote.mk "c-1" "Mine now" None None None None None None))
    sample_store
  = (Rejected collection_not_found, sample_store).
Proof.
  apply (foreign_collection_not_found (mkRuntime 5 "x") (signed_in "bob")
           (mkUser "bob")
           (call_createQuote
              (createQuote.mk "c-1" "Mine now" None None None None None None))
           "c-1" "alice" sample_store eq_refl eq_refl eq_refl eq_refl eq_refl).
  discriminate.
Defined.

(** ** The two listings only read *)

(** X6:
    listCollections and listQuotes return the store they were given, for
    every input, context and store. *)
Theorem listings_read_only rt context st :
  (forall i, snd (server rt context (call_listCollections i) st) = st)
  /\ (forall i, snd (server rt context (call_listQuotes i) st) = st).
Proof.
  split; intros i; rewrite server_dispatch;
    match goal with |- context [valid ?c] => destruct (valid c) end;
    try reflexivity; cbn [handle];
    (destruct (locals_user (locals context)) as [u|] eqn:Hu;
     [| unfold_handlers; unfold bind, lift;
        rewrite (requireUser_none _ Hu); reflexivity]).
  - rewrite (listCollections_does _ _ _ _ _ Hu); reflexivity.
  - rewrite (listQuotes_does _ _ _ _ _ Hu).
    destruct (owned _ _ _); reflexivity.
Qed.

(** ** Creating a collection *)

(** X7:
    A signed-in caller with a non-empty name and an unused generated id gets
    a new row appended to the collections table and returned: it carries the
    generated id, the caller's id as owner, the given name, description and
    icon, isDefault false unless given, and both timestamps equal to the time
    of the call.  The quotes table is untouched. *)
Theorem createCollection_inserts rt context u i st :
  locals_user (locals context) = Some u ->
  valid (call_createCollection i) = true ->
  collection_exists st (randomUUID rt) = false ->
  exists r,
    server rt context (call_createCollection i) st
    = (Fulfilled (mkEnvelope true (collection_data (Some r))),
       mkStore (collections st ++ [r])%list (quotes st))
    /\ QuoteCollections.id r = randomUUID rt
    /\ QuoteCollections.userId r = user_id u
    /\ QuoteCollections.name r = createCollection.name i
    /\ QuoteCollections.description r = createCollection.description i
    /\ QuoteCollections.icon r = createCollection.icon i
    /\ QuoteCollections.isDefault r
       = match createCollection.isDefault i with
         | Some b => b
         | None => false
         end
    /\ QuoteCollections.createdAt r = now rt
    /\ QuoteCollections.updatedAt r = now rt.
Proof.
  intros Hu Hv Hf; rewrite (server_valid _ _ _ Hv); cbn [handle].
  rewrite (createCollection_does _ _ _ _ _ Hu); cbv zeta.
  unfold collection_exists in Hf; rewrite Hf.
  eexists; split; [reflexivity|].
  cbn; repeat split; reflexivity.
Qed.

Lemma createCollection_inserts_witness :
  exists r,
    server (mkRuntime 3000 "c-4") (signed_in "bob")
      (call_createCollection (createCollection.mk "Humour" None None None))
      sample_store
    = (Fulfilled (mkEnvelope true (collection_data (Some r))),
       mkStore (collections sample_store ++ [r])%list (quotes sample_store))
    /\ QuoteCollections.userId r = "bob"
    /\ QuoteCollections.isDefault r = false.
Proof.
  destruct (createCollection_inserts (mkRuntime 3000 "c-4") (signed_in "bob")
              (mkUser "bob")
              (createCollection.mk "Humour" None None None) sample_store
              eq_refl eq_refl eq_refl)
    as (r & H & _ & Hu & _ & _ & _ & Hd & _).
  exists r; repeat split; assumption.
Defined.

(** ** Creating a quote *)

(** X8:
    A signed-in caller who owns the collection, with valid input and an
    unused generated id, gets a new row appended to the quotes table and
    returned: it carries the generated id, the given collectionId, the
    caller's id as owner, the given text and optional fields, isFavorite and
    isPublic false unless given, and both timestamps equal to the time of the
    call.  The collections table is untouched. *)
Theorem createQuote_inserts rt context u i st :
  locals_user (locals context) = Some u ->
  valid (call_createQuote i) = true ->
  owned st (createQuote.collectionId i) (user_id u) = true ->
  quote_exists st (randomUUID rt) = false ->
  exists q,
    server rt context (call_createQuote i) st
    = (Fulfilled (mkEnvelope true (quote_data (Some q))),
       mkStore (collections st) (quotes st ++ [q])%list)
    /\ Quotes.id q = randomUUID rt
    /\ Quotes.collectionId q = createQuote.collectionId i
    /\ Quotes.userId q = user_id u
    /\ Quotes.text q = createQuote.text i
    /\ Quotes.attributedTo q = createQuote.attributedTo i
    /\ Quotes.mood q = createQuote.mood i
    /\ Quotes.tags q = createQuote.tags i
    /\ Quotes.language q = createQuote.language i
    /\ Quotes.isFavorite q
       = match createQuote.isFavorite i with Some b => b | None => false end
    /\ Quotes.isPublic q
       = match createQuote.isPublic i with Some b => b | None => false end
    /\ Quotes.createdAt q = now rt
    /\ Quotes.updatedAt q = now rt.
Proof.
  intros Hu Hv Ho Hf; rewrite (server_valid _ _ _ Hv); cbn [handle].
  rewrite (createQuote_does _ _ _ _ _ Hu), Ho; cbv zeta.
  unfold quote_exists in Hf; rewrite Hf.
  eexists; split; [reflexivity|].
  cbn; repeat split; reflexivity.
Qed.

Lemma createQuote_inserts_witness :
  exists q,
    server (mkRuntime 3000 "q-2") (signed_in "alice")
      (call_createQuote
         (createQuote.mk "c-2" "Lead by example" None None None None
            (Some true) None))
      sample_store
    = (Fulfilled (mkEnvelope true (quote_data (Some q))),
       mkStore (collections sample_store) (quotes sample_store ++ [q])%list)
    /\ Quotes.userId q = "alice"
    /\ Quotes.isFavorite q = true
    /\ Quotes.isPublic q = false.
Proof.
  destruct (createQuote_inserts (mkRuntime 3000 "q-2") (signed_in "alice")
              (mkUser "alice")
              (createQuote.mk "c-2" "Lead by example" None None None None
                 (Some true) None)
              sample_store eq_refl eq_refl eq_refl eq_refl)
    as (q & H & _ & _ & Hu & _ & _ & _ & _ & _ & Hf & Hp & _).
  exists q; repeat split; assumption.
Defined.

(** ** A generated id that is already stored *)

(** X9:
    An insert never overwrites: when the generated id is already the id of a
    stored row of the table, createCollection and createQuote (past the
    schema, the identity check and the guard) are rejected by the table's
    primary key and the store is left as it was. *)
Theorem insert_never_overwrites rt context u st :
  locals_user (locals context) = Some u ->
  (forall i,
      valid (call_createCollection i) = true ->
      collection_exists st (randomUUID rt) = true ->
      server rt context (call_createCollection i) st
      = (Rejected (ConstraintError "QuoteCollections"), st))
  /\ (forall i,
      valid (call_createQuote i) = true ->
      owned st (createQuote.collectionId i) (user_id u) = true ->
      quote_exists st (randomUUID rt) = true ->
      server rt context (call_createQuote i) st
      = (Rejected (ConstraintError "Quotes"), st)).
Proof.
  intros Hu; split.
  - intros i Hv He; rewrite (server_valid _ _ _ Hv); cbn [handle].
    rewrite (createCollection_does _ _ _ _ _ Hu); cbv zeta.
    unfold collection_exists in He; rewrite He; reflexivity.
  - intros i Hv Ho He; rewrite (server_valid _ _ _ Hv); cbn [handle].
    rewrite (createQuote_does _ _ _ _ _ Hu), Ho; cbv zeta.
    unfold quote_exists in He; rewrite He; reflexivity.
Qed.

Lemma insert_never_overwrites_witness :
  server (mkRuntime 3000 "q-1") (signed_in "alice")
    (call_createQuote
       (createQuote.mk "c-2" "Lead by example" None None None None None None))
    sample_store
  = (Rejected (ConstraintError "Quotes"), sample_store).
Proof.
  exact (proj2 (insert_never_overwrites (mkRuntime 3000 "q-1")
                  (signed_in "alice") (mkUser "alice") sample_store eq_refl)
           (createQuote.mk "c-2" "Lead by example" None None None None None
              None)
           eq_refl eq_refl eq_refl).
Defined.

(** ** Listing collections *)

Lemma filter_snoc {R} (p : R -> bool) (t : list R) (r : R) :
  filter p (t ++ [r])%list
  = if p r then (filter p t ++ [r])%list else filter p t.
Proof.
  rewrite filter_app; cbn [filter]; destruct (p r);
    [reflexivity | apply app_nil_r].
Qed.

Lemma listCollections_serves rt context u i st :
  locals_user (locals context) = Some u ->
  server rt context (call_listCollections i) st
  = (Fulfilled
       (mkEnvelope true
          (collection_items (own_collections (user_id u) st)
             (length (own_collections (user_id u) st)))), st).
Proof.
  intros Hu.
  rewrite (server_valid rt context (call_listCollections i) eq_refl).
  cbn [handle]; rewrite (listCollections_does _ _ _ _ _ Hu); reflexivity.
Qed.

(** X10:
    For a signed-in caller listCollections always succeeds; its items are
    the stored collections owned by the caller, in storage order: each of
    them and no row of anyone else; total is their number. *)
Theorem listCollections_own_rows rt context u i st :
  locals_user (locals context) = Some u ->
  exists items,
    server rt context (call_listCollections i) st
    = (Fulfilled (mkEnvelope true (collection_items items (length items))), st)
    /\ (forall c, In c items
                  <-> In c (collections st)
                      /\ QuoteCollections.userId c = user_id u).
Proof.
  intros Hu; exists (own_collections (user_id u) st).
  split; [apply listCollections_serves; exact Hu|].
  intros c; unfold own_collections; rewrite filter_In; unfold Db.eq.
  rewrite String.eqb_eq; tauto.
Qed.

Lemma listCollections_own_rows_witness :
  exists items,
    server (mkRuntime 5 "x") (signed_in "alice") (call_listCollections None)
      sample_store
    = (Fulfilled (mkEnvelope true (collection_items items (length items))),
       sample_store)
    /\ map QuoteCollections.id items = ["c-1"; "c-2"].
Proof.
  destruct (listCollections_own_rows (mkRuntime 5 "x") (signed_in "alice")
              (mkUser "alice") None sample_store eq_refl)
    as (items & H & _).
  exists items; split; [exact H|].
  vm_compute in H; injection H as <-; reflexivity.
Defined.

(** X11:
    After a successful createCollection, the caller's listing is the former
    listing followed by the new row, with a total one higher, and the listing
    of every other user is what it was. *)
Theorem createCollection_then_list rt rt' context u i st env st' :
  locals_user (locals context) = Some u ->
  server rt context (call_createCollection i) st = (Fulfilled env, st') ->
  exists r,
    env = mkEnvelope true (collection_data (Some r))
    /\ (forall li,
          server rt' context (call_listCollections li) st'
          = (Fulfilled
               (mkEnvelope true
                  (collection_items
                     (own_collections (user_id u) st ++ [r])%list
                     (S (length (own_collections (user_id u) st))))), st'))
    /\ (forall context' u' li,
          locals_user (locals context') = Some u' ->
          user_id u' <> user_id u ->
          fst (server rt' context' (call_listCollections li) st')
          = fst (server rt' context' (call_listCollections li) st)).
Proof.
  intros Hu H; apply server_fulfilled in H; destruct H as (_ & H & _).
  cbn [handle] in H; rewrite (createCollection_does _ _ _ _ _ Hu) in H.
  cbv zeta in H; destruct (existsb _ _); [discriminate|].
  injection H as <- <-; eexists; split; [reflexivity|]. split.
  - intros li; rewrite (listCollections_serves _ _ _ _ _ Hu).
    unfold own_collections, Db.eq; cbn [collections].
    rewrite filter_snoc; cbn [QuoteCollections.userId].
    rewrite String.eqb_refl, length_app, Nat.add_1_r; reflexivity.
  - intros context' u' li Hu' Hne.
    rewrite !(listCollections_serves _ _ _ _ _ Hu').
    unfold own_collections, Db.eq; cbn [collections fst].
    rewrite filter_snoc; cbn [QuoteCollections.userId].
    apply not_eq_sym, String.eqb_neq in Hne; rewrite Hne; reflexivity.
Qed.

Lemma createCollection_then_list_witness :
  exists r,
    QuoteCollections.id r = "c-4"
    /\ server (mkRuntime 3001 "x") (signed_in "bob")
         (call_listCollections None)
         (snd (server (mkRuntime 3000 "c-4") (signed_in "bob")
                 (call_createCollection
                    (createCollection.mk "Humour" None None None))
                 sample_store))
       = (Fulfilled
            (mkEnvelope true
               (collection_items
                  (own_collections "bob" sample_store ++ [r])%list 2)),
          snd (server (mkRuntime 3000 "c-4") (signed_in "bob")
                 (call_createCollection
                    (createCollection.mk "Humour" None None None))
                 sample_store)).
Proof.
  destruct (createCollection_then_list (mkRuntime 3000 "c-4")
              (mkRuntime 3001 "x") (signed_in "bob") (mkUser "bob")
              (createCollection.mk "Humour" None None None) sample_store
              _ _ eq_refl eq_refl)
    as (r & E & H & _).
  exists r; split; [injection E as <-; reflexivity|].
  exact (H None).
Defined.

(** ** Updating a collection *)

Lemma first_patched {R} (pk : R -> string) (s : R -> R) (t : list R) (r : R) :
  NoDup (map pk t) -> In r t ->
  first (map s (filter (Db.eq pk (pk r)) t)) = Some (s r).
Proof.
  intros ND Hin; unfold Db.eq.
  rewrite (filter_by_key pk t r ND Hin); reflexivity.
Qed.

Lemma patch_one_row {R} (pk : R -> string) (s : R -> R) (t : list R) (r : R) :
  NoDup (map pk t) -> In r t ->
  map (fun x => if Db.eq pk (pk r) x then s x else x) t
  = map (fun x => if String.eqb (pk x) (pk r) then s r else x) t.
Proof.
  intros ND Hin; apply map_ext_in; intros x Hx; unfold Db.eq.
  destruct (String.eqb (pk x) (pk r)) eqn:E; [|reflexivity].
  apply String.eqb_eq in E.
  rewrite (pk_determines pk t x r ND Hx Hin E); reflexivity.
Qed.

(** X12:
    A signed-in owner's valid updateCollection succeeds on a store with
    unique ids: exactly the row with the given id is replaced, in place, by
    the row that is returned; that row keeps its id, owner and creation time,
    takes the time of the call as updatedAt, takes each provided field and
    keeps each field that was not provided.  Every other collection and the
    quotes table are untouched. *)
Theorem updateCollection_patches rt context u i st :
  locals_user (locals context) = Some u ->
  valid (call_updateCollection i) = true ->
  pk_unique st = true ->
  owned st (updateCollection.id i) (user_id u) = true ->
  exists c c',
    In c (collections st)
    /\ QuoteCollections.id c = updateCollection.id i
    /\ QuoteCollections.userId c = user_id u
    /\ server rt context (call_updateCollection i) st
       = (Fulfilled (mkEnvelope true (collection_data (Some c'))),
          mkStore
            (map (fun r =>
                    if String.eqb (QuoteCollections.id r) (updateCollection.id i)
                    then c' else r)
               (collections st))
            (quotes st))
    /\ QuoteCollections.id c' = QuoteCollections.id c
    /\ QuoteCollections.userId c' = QuoteCollections.userId c
    /\ QuoteCollections.createdAt c' = QuoteCollections.createdAt c
    /\ QuoteCollections.updatedAt c' = now rt
    /\ QuoteCollections.name c'
       = match updateCollection.name i with
         | Some v => v
         | None => QuoteCollections.name c
         end
    /\ QuoteCollections.description c'
       = match updateCollection.description i with
         | Some v => Some v
         | None => QuoteCollections.description c
         end
    /\ QuoteCollections.icon c'
       = match updateCollection.icon i with
         | Some v => Some v
         | None => QuoteCollections.icon c
         end
    /\ QuoteCollections.isDefault c'
       = match updateCollection.isDefault i with
         | Some v => v
         | None => QuoteCollections.isDefault c
         end.
Proof.
  intros Hu Hv K Ho; apply pk_unique_NoDup in K; destruct K as [Kc _].
  destruct (owned_row _ _ _ Ho) as (c & Hin & Hid & Hown).
  exists c, (updateCollection.set rt i c).
  split; [exact Hin|]. split; [exact Hid|]. split; [exact Hown|]. split.
  - rewrite (server_valid _ _ _ Hv); cbn [handle].
    rewrite (updateCollection_does _ _ _ _ _ Hu), Ho; cbv zeta.
    rewrite <- Hid.
    rewrite (first_patched QuoteCollections.id _ _ _ Kc Hin).
    rewrite (patch_one_row QuoteCollections.id _ _ _ Kc Hin).
    reflexivity.
  - repeat split; reflexivity.
Qed.

Lemma updateCollection_patches_witness :
  exists c',
    fst (server (mkRuntime 4000 "x") (signed_in "alice")
           (call_updateCollection
              (updateCollection.mk "c-2" None None (Some "star") None))
           sample_store)
    = Fulfilled (mkEnvelope true (collection_data (Some c')))
    /\ QuoteCollections.name c' = "Leadership"
    /\ QuoteCollections.description c' = Some "work"
    /\ QuoteCollections.icon c' = Some "star"
    /\ QuoteCollections.updatedAt c' = 4000%Z.
Proof.
  destruct (updateCollection_patches (mkRuntime 4000 "x") (signed_in "alice")
              (mkUser "alice")
              (updateCollection.mk "c-2" None None (Some "star") None)
              sample_store eq_refl eq_refl eq_refl eq_refl)
    as (c & c' & Hin & Hid & _ & H & _ & _ & _ & Hupd & Hn & Hd & Hi & _).
  exists c'; split; [rewrite H; reflexivity|].
  cbn in Hin; destruct Hin as [<-|[<-|[<-|[]]]]; try discriminate Hid.
  repeat split; assumption.
Defined.

(** ** Updating a quote *)

(** X13:
    A signed-in owner's valid updateQuote on a quote stored under the stated
    collection succeeds on a store with unique ids: exactly that row is
    replaced, in place, by the row that is returned; that row keeps its id,
    collection, owner and creation time, takes the time of the call as
    updatedAt, takes each provided field and keeps each field that was not
    provided.  Every other quote and the collections table are untouched. *)
Theorem updateQuote_patches rt context u i st :
  locals_user (locals context) = Some u ->
  valid (call_updateQuote i) = true ->
  pk_unique st = true ->
  owned st (updateQuote.collectionId i) (user_id u) = true ->
  quote_under st (updateQuote.id i) (updateQuote.collectionId i) = true ->
  exists q q',
    In q (quotes st)
    /\ Quotes.id q = updateQuote.id i
    /\ Quotes.collectionId q = updateQuote.collectionId i
    /\ server rt context (call_updateQuote i) st
       = (Fulfilled (mkEnvelope true (quote_data (Some q'))),
          mkStore (collections st)
            (map (fun r =>
                    if String.eqb (Quotes.id r) (updateQuote.id i)
                    then q' else r)
               (quotes st)))
    /\ Quotes.id q' = Quotes.id q
    /\ Quotes.collectionId q' = Quotes.collectionId q
    /\ Quotes.userId q' = Quotes.userId q
    /\ Quotes.createdAt q' = Quotes.createdAt q
    /\ Quotes.updatedAt q' = now rt
    /\ Quotes.text q'
       = match updateQuote.text i with
         | Some v => v
         | None => Quotes.text q
         end
    /\ Quotes.attributedTo q'
       = match updateQuote.attributedTo i with
         | Some v => Some v
         | None => Quotes.attributedTo q
         end
    /\ Quotes.mood q'
       = match updateQuote.mood i with
         | Some v => Some v
         | None => Quotes.mood q
         end
    /\ Quotes.tags q'
       = match updateQuote.tags i with
         | Some v => Some v
         | None => Quotes.tags q
         end
    /\ Quotes.language q'
       = match updateQuote.language i with
         | Some v => Some v
         | None => Quotes.language q
         end
    /\ Quotes.isFavorite q'
       = match updateQuote.isFavorite i with
         | Some v => v
         | None => Quotes.isFavorite q
         end
    /\ Quotes.isPublic q'
       = match updateQuote.isPublic i with
         | Some v => v
         | None => Quotes.isPublic q
         end.
Proof.
  intros Hu Hv K Ho Hq; apply pk_unique_NoDup in K; destruct K as [_ Kq].
  destruct (quote_under_row _ _ _ Hq) as (q & Hin & Hid & Hcid).
  exists q, (updateQuote.set rt i q).
  split; [exact Hin|]. split; [exact Hid|]. split; [exact Hcid|]. split.
  - rewrite (server_valid _ _ _ Hv); cbn [handle].
    rewrite (updateQuote_does _ _ _ _ _ Hu), Ho, Hq; cbv zeta.
    rewrite <- Hid.
    rewrite (first_patched Quotes.id _ _ _ Kq Hin).
    rewrite (patch_one_row Quotes.id _ _ _ Kq Hin).
    reflexivity.
  - repeat split; reflexivity.
Qed.

Lemma updateQuote_patches_witness :
  exists q',
    fst (server (mkRuntime 4000 "x") (signed_in "alice")
           (call_updateQuote
              (updateQuote.mk "q-1" "c-1" (Some "Keep going!") None None
                 (Some "grit") None None (Some true)))
           sample_store)
    = Fulfilled (mkEnvelope true (quote_data (Some q')))
    /\ Quotes.text q' = "Keep going!"
    /\ Quotes.mood q' = Some "inspiring"
    /\ Quotes.tags q' = Some "grit"
    /\ Quotes.isPublic q' = true
    /\ Quotes.createdAt q' = 1003%Z
    /\ Quotes.updatedAt q' = 4000%Z.
Proof.
  destruct (updateQuote_patches (mkRuntime 4000 "x") (signed_in "alice")
              (mkUser "alice")
              (updateQuote.mk "q-1" "c-1" (Some "Keep going!") None None
                 (Some "grit") None None (Some true))
              sample_store eq_refl eq_refl eq_refl eq_refl eq_refl)
    as (q & q' & Hin & _ & _ & H & _ & _ & _ & Hc & Hup & Ht & _ & Hm & Hg
        & _ & _ & Hp).
  exists q'; split; [rewrite H; reflexivity|].
  cbn in Hin; destruct Hin as [<-|[]].
  repeat split; assumption.
Defined.

(** ** Listing quotes *)

Lemma listQuotes_filter (uid cid : string) (fav : bool) (q : Quotes.row) :
  @Db.and Quotes.row
    (if fav
     then ([Db.eq Quotes.collectionId cid; Db.eq Quotes.userId uid]
           ++ [Db.eq_bool Quotes.isFavorite true])%list
     else [Db.eq Quotes.collectionId cid; Db.eq Quotes.userId uid]) q
  = String.eqb (Quotes.collectionId q) cid
    && String.eqb (Quotes.userId q) uid
    && (negb fav || Quotes.isFavorite q).
Proof.
  destruct fav; cbn [negb orb].
  - rewrite and_snoc, and2_true, eq_bool_true; reflexivity.
  - rewrite and2_true, andb_true_r; reflexivity.
Qed.

Lemma listQuotes_serves rt context u cid f ip st :
  locals_user (locals context) = Some u ->
  cid <> "" ->
  owned st cid (user_id u) = true ->
  server rt context (call_listQuotes (listQuotes.mk cid f ip)) st
  = (Fulfilled
       (mkEnvelope true
          (quote_items
             (own_quotes_under (user_id u) cid (Zod.or_default f false) st)
             (length
                (own_quotes_under (user_id u) cid (Zod.or_default f false)
                   st)))), st).
Proof.
  intros Hu Hc Ho.
  assert (Hv : valid (call_listQuotes (listQuotes.mk cid f ip)) = true).
  { apply valid_iff; cbn [call_issues]; unfold listQuotes.issues.
    apply min1_nil; exact Hc. }
  rewrite (server_valid _ _ _ Hv); cbn [handle].
  rewrite (listQuotes_does _ _ _ _ _ Hu).
  cbn [listQuotes.collectionId listQuotes.favoritesOnly]; rewrite Ho.
  cbv zeta; unfold own_quotes_under.
  rewrite (filter_ext _ _ (listQuotes_filter (user_id u) cid
                             (Zod.or_default f false))).
  reflexivity.
Qed.

(** X14:
    For a signed-in owner listQuotes succeeds without changing the store; its
    items are the stored quotes that carry the given collectionId and the
    caller's id as owner, and, when favoritesOnly is true, are favourites;
    no other row is listed, and total is the number of items. *)
Theorem listQuotes_own_rows rt context u cid f ip st :
  locals_user (locals context) = Some u ->
  cid <> "" ->
  owned st cid (user_id u) = true ->
  exists items,
    server rt context (call_listQuotes (listQuotes.mk cid f ip)) st
    = (Fulfilled (mkEnvelope true (quote_items items (length items))), st)
    /\ (forall q, In q items
                  <-> In q (quotes st)
                      /\ Quotes.collectionId q = cid
                      /\ Quotes.userId q = user_id u
                      /\ (f = Some true -> Quotes.isFavorite q = true)).
Proof.
  intros Hu Hc Ho; eexists; split;
    [apply (listQuotes_serves _ _ _ _ _ _ _ Hu Hc Ho)|].
  intros q; unfold own_quotes_under; rewrite filter_In.
  rewrite !andb_true_iff, !String.eqb_eq, orb_true_iff, negb_true_iff.
  destruct f as [[|]|]; cbn [Zod.or_default];
    intuition (try congruence; try discriminate).
Qed.

Lemma listQuotes_own_rows_witness :
  exists items,
    server (mkRuntime 5 "x") (signed_in "alice")
      (call_listQuotes (listQuotes.mk "c-1" None None)) sample_store
    = (Fulfilled (mkEnvelope true (quote_items items (length items))),
       sample_store)
    /\ map Quotes.id items = ["q-1"].
Proof.
  destruct (listQuotes_own_rows (mkRuntime 5 "x") (signed_in "alice")
              (mkUser "alice") "c-1" None None sample_store eq_refl)
    as (items & H & _); [discriminate | reflexivity |].
  exists items; split; [exact H|].
  vm_compute in H; injection H as <-; reflexivity.
Defined.

(** X15:
    The includePublic flag is ignored: two listQuotes calls that differ only
    in that flag have the same outcome and leave the same store, for every
    context and store. *)
Theorem includePublic_ignored rt rt' context cid f ip ip' st :
  server rt context (call_listQuotes (listQuotes.mk cid f ip)) st
  = server rt' context (call_listQuotes (listQuotes.mk cid f ip')) st.
Proof.
  rewrite !server_dispatch.
  change (valid (call_listQuotes (listQuotes.mk cid f ip')))
    with (valid (call_listQuotes (listQuotes.mk cid f ip))).
  destruct (valid _); [|reflexivity].
  destruct (locals_user (locals context)) as [u|] eqn:Hu.
  - cbn [handle]; rewrite !(listQuotes_does _ _ _ _ _ Hu); reflexivity.
  - rewrite !(handle_signed_out _ _ _ _ Hu); reflexivity.
Qed.

(** X16:
    On a store with unique ids in which every quote carries the owner of its
    collection (as every reachable store does), the owner's default listing
    is the whole collection: every stored quote with that collectionId, so
    the userId filter of listQuotes excludes nothing. *)
Theorem listQuotes_whole_collection rt context u cid ip st :
  locals_user (locals context) = Some u ->
  cid <> "" ->
  pk_unique st = true ->
  owner_consistent st = true ->
  owned st cid (user_id u) = true ->
  server rt context (call_listQuotes (listQuotes.mk cid None ip)) st
  = (Fulfilled
       (mkEnvelope true
          (quote_items (quotes_under cid st) (length (quotes_under cid st)))),
     st).
Proof.
  intros Hu Hc K O Ho.
  rewrite (listQuotes_serves _ _ _ _ _ _ _ Hu Hc Ho); cbn [Zod.or_default].
  assert (E : own_quotes_under (user_id u) cid false st = quotes_under cid st).
  { unfold own_quotes_under, quotes_under; apply filter_ext_in; intros q Hq.
    cbn [negb orb]; rewrite andb_true_r.
    destruct (String.eqb (Quotes.collectionId q) cid) eqn:E; [|reflexivity].
    apply String.eqb_eq in E; cbn [andb]; apply String.eqb_eq.
    pose proof (proj1 (owner_consistent_iff st) O q Hq) as Hq'.
    rewrite E in Hq'; apply (one_owner st cid _ _ K Hq' Ho). }
  rewrite E; reflexivity.
Qed.

Lemma listQuotes_whole_collection_witness :
  server (mkRuntime 5 "x") (signed_in "alice")
    (call_listQuotes (listQuotes.mk "c-1" None (Some true))) sample_store
  = (Fulfilled
       (mkEnvelope true
          (quote_items (quotes_under "c-1" sample_store)
             (length (quotes_under "c-1" sample_store)))),
     sample_store).
Proof.
  apply (listQuotes_whole_collection (mkRuntime 5 "x") (signed_in "alice")
           (mkUser "alice") "c-1" (Some true) sample_store eq_refl);
    [discriminate | reflexivity | reflexivity | reflexivity].
Defined.

(** ** Creating, then listing *)

Lemma createQuote_fulfilled rt context u i st env st' :
  locals_user (locals context) = Some u ->
  server rt context (call_createQuote i) st = (Fulfilled env, st') ->
  createQuote.collectionId i <> ""
  /\ owned st (createQuote.collectionId i) (user_id u) = true
  /\ exists q,
       env = mkEnvelope true (quote_data (Some q))
       /\ st' = mkStore (collections st) (quotes st ++ [q])%list
       /\ Quotes.collectionId q = createQuote.collectionId i
       /\ Quotes.userId q = user_id u
       /\ Quotes.isFavorite q
          = Zod.or_default (createQuote.isFavorite i) false.
Proof.
  intros Hu H; apply server_fulfilled in H; destruct H as (Hv & H & _).
  split.
  { apply valid_iff in Hv; cbn [call_issues] in Hv.
    unfold createQuote.issues in Hv; apply app_nil_iff in Hv.
    destruct Hv as [Hv _]; apply min1_nil in Hv; exact Hv. }
  cbn [handle] in H; rewrite (createQuote_does _ _ _ _ _ Hu) in H.
  destruct (owned _ _ _); [|discriminate]. split; [reflexivity|].
  cbv zeta in H; destruct (existsb _ _); [discriminate|].
  injection H as <- <-; eexists; repeat split; reflexivity.
Qed.

(** X17:
    After a successful createQuote, the caller's listing of that collection
    is the former listing followed by the new row; with favoritesOnly the
    new row is added only when it was created as a favourite. *)
Theorem createQuote_then_list rt rt' context u i f ip st env st' :
  locals_user (locals context) = Some u ->
  server rt context (call_createQuote i) st = (Fulfilled env, st') ->
  exists q items,
    env = mkEnvelope true (quote_data (Some q))
    /\ server rt' context
         (call_listQuotes (listQuotes.mk (createQuote.collectionId i) f ip))
         st
       = (Fulfilled (mkEnvelope true (quote_items items (length items))), st)
    /\ server rt' context
         (call_listQuotes (listQuotes.mk (createQuote.collectionId i) f ip))
         st'
       = (Fulfilled
            (mkEnvelope true
               (quote_items
                  (items ++ (if negb (Zod.or_default f false)
                                || Quotes.isFavorite q
                             then [q] else []))%list
                  (length
                     (items ++ (if negb (Zod.or_default f false)
                                   || Quotes.isFavorite q
                                then [q] else []))%list))), st').
Proof.
  intros Hu H.
  destruct (createQuote_fulfilled _ _ _ _ _ _ _ Hu H)
    as (Hc & Ho & q & -> & -> & Hcid & Hown & _).
  exists q, (own_quotes_under (user_id u) (createQuote.collectionId i)
               (Zod.or_default f false) st).
  split; [reflexivity|]. split.
  - apply (listQuotes_serves _ _ _ _ _ _ _ Hu Hc Ho).
  - rewrite (listQuotes_serves _ _ _ _ _ _ _ Hu Hc);
      [|unfold owned; cbn [collections]; exact Ho].
    unfold own_quotes_under; cbn [quotes]; rewrite filter_snoc.
    rewrite Hcid, Hown, !String.eqb_refl; cbn [andb].
    destruct (negb (Zod.or_default f false) || Quotes.isFavorite q);
      [reflexivity | rewrite app_nil_r; reflexivity].
Qed.

Lemma createQuote_then_list_witness :
  exists q,
    Quotes.text q = "Breathe"
    /\ listed
         (fst (server (mkRuntime 3001 "x") (signed_in "alice")
                 (call_listQuotes (listQuotes.mk "c-1" None None))
                 (snd (server (mkRuntime 3000 "q-2") (signed_in "alice")
                         (call_createQuote
                            (createQuote.mk "c-1" "Breathe" None None None
                               None None None))
                         sample_store))))
       = Some (quotes sample_store ++ [q])%list.
Proof.
  destruct (createQuote_then_list (mkRuntime 3000 "q-2") (mkRuntime 3001 "x")
              (signed_in "alice") (mkUser "alice")
              (createQuote.mk "c-1" "Breathe" None None None None None None)
              None None sample_store _ _ eq_refl eq_refl)
    as (q & items & E & H & H').
  exists q; split; [injection E as <-; reflexivity|].
  refine (eq_trans (f_equal (fun x => listed (fst x)) H') _).
  cbn [fst listed Zod.or_default negb orb]; f_equal; f_equal.
  vm_compute in H; injection H as <-; reflexivity.
Defined.

(** ** Deleting a quote *)

Lemma existsb_filter_out {R} (p : R -> bool) (t : list R) :
  existsb p (filter (fun r => negb (p r)) t) = false.
Proof.
  apply not_true_iff_false; intros H; apply existsb_exists in H.
  destruct H as (r & Hin & Hp); apply filter_In in Hin.
  destruct Hin as [_ Hn]; rewrite Hp in Hn; discriminate.
Qed.

Lemma deleteQuote_fulfilled rt context u i st env st' :
  locals_user (locals context) = Some u ->
  server rt context (call_deleteQuote i) st = (Fulfilled env, st') ->
  valid (call_deleteQuote i) = true
  /\ owned st (deleteQuote.collectionId i) (user_id u) = true
  /\ quote_under st (deleteQuote.id i) (deleteQuote.collectionId i) = true
  /\ env = mkEnvelope true no_data
  /\ st' = mkStore (collections st)
             (filter
                (fun r =>
                   negb (String.eqb (Quotes.id r) (deleteQuote.id i)
                         && String.eqb (Quotes.collectionId r)
                              (deleteQuote.collectionId i)))
                (quotes st)).
Proof.
  intros Hu H; apply server_fulfilled in H; destruct H as (Hv & H & _).
  split; [exact Hv|].
  cbn [handle] in H; rewrite (deleteQuote_does _ _ _ _ _ Hu) in H.
  destruct (owned _ _ _); [|discriminate]. split; [reflexivity|].
  destruct (quote_under _ _ _); [|discriminate]. split; [reflexivity|].
  injection H as <- <-; split; [reflexivity|].
  apply (f_equal (mkStore (collections st))).
  apply filter_ext; intros r; unfold Db.and, Db.eq; cbn [forallb].
  rewrite andb_true_r; reflexivity.
Qed.

(** X18:
    A signed-in owner's valid deleteQuote on a quote stored under the stated
    collection succeeds on a store with unique ids and removes exactly that
    row: the quotes table is one row shorter, keeps every other row in
    order, and no longer has a row with that id.  The collections table is
    untouched and the envelope carries no data. *)
Theorem deleteQuote_removes rt context u i st :
  locals_user (locals context) = Some u ->
  valid (call_deleteQuote i) = true ->
  pk_unique st = true ->
  owned st (deleteQuote.collectionId i) (user_id u) = true ->
  quote_under st (deleteQuote.id i) (deleteQuote.collectionId i) = true ->
  exists q,
    In q (quotes st)
    /\ Quotes.id q = deleteQuote.id i
    /\ Quotes.collectionId q = deleteQuote.collectionId i
    /\ server rt context (call_deleteQuote i) st
       = (Fulfilled (mkEnvelope true no_data),
          mkStore (collections st)
            (filter
               (fun r => negb (String.eqb (Quotes.id r) (deleteQuote.id i)))
               (quotes st)))
    /\ length (quotes st)
       = S (length
              (filter
                 (fun r => negb (String.eqb (Quotes.id r) (deleteQuote.id i)))
                 (quotes st)))
    /\ (forall r,
          In r (filter
                  (fun r => negb (String.eqb (Quotes.id r) (deleteQuote.id i)))
                  (quotes st))
          <-> In r (quotes st) /\ r <> q).
Proof.
  intros Hu Hv K Ho Hq.
  pose proof K as K'; apply pk_unique_NoDup in K'; destruct K' as [_ Kq].
  destruct (quote_under_row _ _ _ Hq) as (q & Hin & Hid & Hcid).
  exists q. split; [exact Hin|]. split; [exact Hid|]. split; [exact Hcid|].
  split; [|split].
  - rewrite (server_valid _ _ _ Hv); cbn [handle].
    rewrite (deleteQuote_does _ _ _ _ _ Hu), Ho, Hq.
    do 2 f_equal; apply filter_ext_in; intros r Hr; f_equal.
    symmetry; apply (quote_filters_agree st _ _ Kq Hq r Hr).
  - rewrite <- (filter_length
                  (fun r => String.eqb (Quotes.id r) (deleteQuote.id i))
                  (quotes st)).
    rewrite <- Hid, (filter_by_key Quotes.id (quotes st) q Kq Hin).
    reflexivity.
  - intros r; rewrite filter_In, negb_true_iff, String.eqb_neq.
    split; intros [Hr Hne]; (split; [exact Hr|]).
    + intros ->; contradiction.
    + intros E; apply Hne.
      apply (pk_determines Quotes.id (quotes st)); congruence.
Qed.

Lemma deleteQuote_removes_witness :
  server (mkRuntime 5 "x") (signed_in "alice")
    (call_deleteQuote (deleteQuote.mk "q-1" "c-1")) sample_store
  = (Fulfilled (mkEnvelope true no_data),
     mkStore (collections sample_store) []).
Proof.
  destruct (deleteQuote_removes (mkRuntime 5 "x") (signed_in "alice")
              (mkUser "alice") (deleteQuote.mk "q-1" "c-1") sample_store
              eq_refl eq_refl eq_refl eq_refl eq_refl)
    as (q & _ & _ & _ & H & _).
  exact H.
Defined.

(** X19:
    Once a quote has been deleted, deleting it again, or updating it, under
    the same collection is rejected with NOT_FOUND / "Quote not found." and
    changes nothing. *)
Theorem deleteQuote_twice rt rt' context u i st env st' :
  locals_user (locals context) = Some u ->
  server rt context (call_deleteQuote i) st = (Fulfilled env, st') ->
  server rt' context (call_deleteQuote i) st' = (Rejected quote_not_found, st')
  /\ (forall j,
        valid (call_updateQuote j) = true ->
        updateQuote.id j = deleteQuote.id i ->
        updateQuote.collectionId j = deleteQuote.collectionId i ->
        server rt' context (call_updateQuote j) st'
        = (Rejected quote_not_found, st')).
Proof.
  intros Hu H.
  destruct (deleteQuote_fulfilled _ _ _ _ _ _ _ Hu H)
    as (Hv & Ho & _ & _ & ->).
  assert (Ho' : forall qs, owned (mkStore (collections st) qs)
                             (deleteQuote.collectionId i) (user_id u) = true)
    by (intros qs; exact Ho).
  assert (Hq' : quote_under
                  (mkStore (collections st)
                     (filter
                        (fun r =>
                           negb (String.eqb (Quotes.id r) (deleteQuote.id i)
                                 && String.eqb (Quotes.collectionId r)
                                      (deleteQuote.collectionId i)))
                        (quotes st)))
                  (deleteQuote.id i) (deleteQuote.collectionId i) = false)
    by (unfold quote_under; cbn [quotes];
        apply (existsb_filter_out
                 (fun q => String.eqb (Quotes.id q) (deleteQuote.id i)
                           && String.eqb (Quotes.collectionId q)
                                (deleteQuote.collectionId i)))).
  split.
  - rewrite (server_valid _ _ _ Hv); cbn [handle].
    rewrite (deleteQuote_does _ _ _ _ _ Hu), Ho', Hq'; reflexivity.
  - intros j Hvj Hid Hcid; rewrite (server_valid _ _ _ Hvj); cbn [handle].
    rewrite (updateQuote_does _ _ _ _ _ Hu), Hid, Hcid, Ho', Hq'.
    reflexivity.
Qed.

Lemma deleteQuote_twice_witness :
  server (mkRuntime 6 "x") (signed_in "alice")
    (call_deleteQuote (deleteQuote.mk "q-1" "c-1"))
    (snd (server (mkRuntime 5 "x") (signed_in "alice")
            (call_deleteQuote (deleteQuote.mk "q-1" "c-1")) sample_store))
  = (Rejected quote_not_found,
     snd (server (mkRuntime 5 "x") (signed_in "alice")
            (call_deleteQuote (deleteQuote.mk "q-1" "c-1")) sample_store)).
Proof.
  exact (proj1 (deleteQuote_twice (mkRuntime 5 "x") (mkRuntime 6 "x")
                  (signed_in "alice") (mkUser "alice")
                  (deleteQuote.mk "q-1" "c-1") sample_store _ _
                  eq_refl eq_refl)).
Defined.

(** ** Rows of other users are out of reach *)

Lemma filter_patch_outside {R} (P p : R -> bool) (s : R -> R) (t : list R) :
  (forall r, In r t -> p r = true -> P r = false /\ P (s r) = false) ->
  filter P (map (fun r => if p r then s r else r) t) = filter P t.
Proof.
  induction t as [|r t IH]; intros H; cbn [map filter]; [reflexivity|].
  rewrite IH by (intros x Hx; apply H; right; exact Hx).
  destruct (p r) eqn:E; [|reflexivity].
  destruct (H r (or_introl eq_refl) E) as [-> ->]; reflexivity.
Qed.

Lemma filter_delete_outside {R} (P m : R -> bool) (t : list R) :
  (forall r, In r t -> m r = true -> P r = false) ->
  filter P (filter (fun r => negb (m r)) t) = filter P t.
Proof.
  induction t as [|r t IH]; intros H; cbn [filter]; [reflexivity|].
  pose proof (IH (fun x Hx => H x (or_intror Hx))) as IH'.
  destruct (m r) eqn:E; cbn [negb filter].
  - rewrite (H r (or_introl eq_refl) E); exact IH'.
  - rewrite IH'; reflexivity.
Qed.

Lemma not_foreign (uid uid' : string) :
  uid' = uid -> negb (String.eqb uid' uid) = false.
Proof. intros ->; rewrite String.eqb_refl; reflexivity. Qed.

(** In a consistent store, a quote under a collection owned by [uid] is
    owned by [uid]. *)
Lemma quote_owner st cid uid q :
  pk_unique st = true -> owner_consistent st = true ->
  owned st cid uid = true ->
  In q (quotes st) -> Quotes.collectionId q = cid ->
  Quotes.userId q = uid.
Proof.
  intros K O Ho Hq Hcid.
  pose proof (proj1 (owner_consistent_iff st) O q Hq) as Hq'.
  rewrite Hcid in Hq'; apply (one_owner st cid _ _ K Hq' Ho).
Qed.

(** X20:
    On a store with unique ids in which every quote carries the owner of its
    collection (as every reachable store does), no call made by a signed-in
    user, whatever its input, adds, changes or removes a collection or a
    quote owned by anyone else. *)
Theorem other_users_rows_untouched rt context u c st :
  locals_user (locals context) = Some u ->
  pk_unique st = true ->
  owner_consistent st = true ->
  foreign_collections (user_id u) (snd (server rt context c st))
  = foreign_collections (user_id u) st
  /\ foreign_quotes (user_id u) (snd (server rt context c st))
     = foreign_quotes (user_id u) st.
Proof.
  intros Hu K O.
  pose proof K as K'; apply pk_unique_NoDup in K'; destruct K' as [Kc Kq].
  rewrite server_dispatch; destruct (valid c); [|split; reflexivity].
  unfold foreign_collections, foreign_quotes.
  destruct c; cbn [handle].
  - rewrite (createCollection_does _ _ _ _ _ Hu); cbv zeta.
    destruct (existsb _ _); [split; reflexivity|].
    cbn [snd collections quotes]; split; [|reflexivity].
    rewrite filter_snoc; cbn [QuoteCollections.userId].
    rewrite String.eqb_refl; reflexivity.
  - rewrite (updateCollection_does _ _ _ _ _ Hu).
    destruct (owned _ _ _) eqn:Ho; [|split; reflexivity].
    cbn [snd collections quotes]; split; [|reflexivity].
    apply filter_patch_outside; intros r Hr Hp.
    cbn [updateCollection.set QuoteCollections.userId].
    assert (E : QuoteCollections.userId r = user_id u).
    { apply String.eqb_eq in Hp.
      apply (one_owner st (updateCollection.id i) _ _ K); [|exact Ho].
      apply owned_iff; exists r; auto. }
    rewrite (not_foreign _ _ E); split; reflexivity.
  - rewrite (listCollections_does _ _ _ _ _ Hu); split; reflexivity.
  - rewrite (createQuote_does _ _ _ _ _ Hu).
    destruct (owned _ _ _); [|split; reflexivity].
    cbv zeta; destruct (existsb _ _); [split; reflexivity|].
    cbn [snd collections quotes]; split; [reflexivity|].
    rewrite filter_snoc; cbn [Quotes.userId].
    rewrite String.eqb_refl; reflexivity.
  - rewrite (updateQuote_does _ _ _ _ _ Hu).
    destruct (owned _ _ _) eqn:Ho; [|split; reflexivity].
    destruct (quote_under _ _ _) eqn:Hq; [|split; reflexivity].
    cbn [snd collections quotes]; split; [reflexivity|].
    apply filter_patch_outside; intros r Hr Hp.
    cbn [updateQuote.set Quotes.userId].
    assert (E : Quotes.userId r = user_id u).
    { rewrite (quote_filters_agree st _ _ Kq Hq r Hr), and2_true in Hp.
      apply andb_true_iff in Hp; destruct Hp as [_ Hp].
      apply String.eqb_eq in Hp.
      apply (quote_owner st _ _ r K O Ho Hr Hp). }
    rewrite (not_foreign _ _ E); split; reflexivity.
  - rewrite (deleteQuote_does _ _ _ _ _ Hu).
    destruct (owned _ _ _) eqn:Ho; [|split; reflexivity].
    destruct (quote_under _ _ _); [|split; reflexivity].
    cbn [snd collections quotes]; split; [reflexivity|].
    apply filter_delete_outside; intros r Hr Hp.
    rewrite and2_true in Hp; apply andb_true_iff in Hp; destruct Hp as [_ Hp].
    apply String.eqb_eq in Hp.
    apply not_foreign, (quote_owner st _ _ r K O Ho Hr Hp).
  - rewrite (listQuotes_does _ _ _ _ _ Hu).
    destruct (owned _ _ _); split; reflexivity.
Qed.

Lemma other_users_rows_untouched_witness :
  foreign_collections "bob"
    (snd (server (mkRuntime 5 "x") (signed_in "bob")
            (call_updateCollection
               (updateCollection.mk "c-1" (Some "Taken") None None None))
            sample_store))
  = foreign_collections "bob" sample_store
  /\ foreign_quotes "bob"
       (snd (server (mkRuntime 5 "x") (signed_in "bob")
               (call_updateCollection
                  (updateCollection.mk "c-1" (Some "Taken") None None None))
               sample_store))
     = foreign_quotes "bob" sample_store.
Proof.
  apply (other_users_rows_untouched (mkRuntime 5 "x") (signed_in "bob")
           (mkUser "bob")
           (call_updateCollection
              (updateCollection.mk "c-1" (Some "Taken") None None None))
           sample_store eq_refl eq_refl eq_refl).
Defined.

(** ** Rows that stay *)

(** X21:
    No request removes, moves or re-owns a collection: whatever is served,
    every stored collection is still at its position afterwards, with the
    same id, owner and creation time. *)
Theorem collections_persist rq st n c :
  nth_error (collections st) n = Some c ->
  exists c',
    nth_error (collections (snd (serve rq st))) n = Some c'
    /\ QuoteCollections.id c' = QuoteCollections.id c
    /\ QuoteCollections.userId c' = QuoteCollections.userId c
    /\ QuoteCollections.createdAt c' = QuoteCollections.createdAt c.
Proof.
  intros Hn.
  destruct (serve_effect rq st)
    as [-> | c0 _ -> | rt i p -> | rt context i u q _ _ _ _ _ _ ->
       | rt i p -> | p ->]; cbn [collections];
    try (exists c; repeat split; assumption).
  - exists c; repeat split; try reflexivity.
    rewrite nth_error_app1; [exact Hn|].
    apply nth_error_Some; rewrite Hn; discriminate.
  - rewrite nth_error_map, Hn; cbn [option_map].
    eexists; split; [reflexivity|].
    destruct (p c); repeat split; reflexivity.
Qed.

Lemma collections_persist_witness :
  exists c',
    nth_error
      (collections
         (snd (serve (mkRuntime 4000 "x", signed_in "alice",
                      call_updateCollection
                        (updateCollection.mk "c-1" (Some "Drive") None None
                           (Some true)))
                 sample_store))) 0 = Some c'
    /\ QuoteCollections.id c' = "c-1"
    /\ QuoteCollections.userId c' = "alice"
    /\ QuoteCollections.createdAt c' = 1000%Z.
Proof.
  apply (collections_persist
           (mkRuntime 4000 "x", signed_in "alice",
            call_updateCollection
              (updateCollection.mk "c-1" (Some "Drive") None None (Some true)))
           sample_store 0
           (QuoteCollections.mk "c-1" "alice" "Motivation" None None false
              1000 1000)
           eq_refl).
Defined.

(** X22:
    Only deleteQuote removes quotes: after any other call every stored quote
    is still at its position, with the same id, collection, owner and
    creation time. *)
Theorem quotes_persist_unless_deleted rt context c st n q :
  (forall i, c <> call_deleteQuote i) ->
  nth_error (quotes st) n = Some q ->
  exists q',
    nth_error (quotes (snd (server rt context c st))) n = Some q'
    /\ Quotes.id q' = Quotes.id q
    /\ Quotes.collectionId q' = Quotes.collectionId q
    /\ Quotes.userId q' = Quotes.userId q
    /\ Quotes.createdAt q' = Quotes.createdAt q.
Proof.
  intros Hc Hn.
  assert (Same : exists q',
             nth_error (quotes st) n = Some q'
             /\ Quotes.id q' = Quotes.id q
             /\ Quotes.collectionId q' = Quotes.collectionId q
             /\ Quotes.userId q' = Quotes.userId q
             /\ Quotes.createdAt q' = Quotes.createdAt q)
    by (exists q; repeat split; assumption).
  rewrite server_dispatch; destruct (valid c); [|exact Same].
  destruct (locals_user (locals context)) as [u|] eqn:Hu;
    [|rewrite (handle_signed_out _ _ _ _ Hu); exact Same].
  destruct c; cbn [handle].
  - rewrite (createCollection_does _ _ _ _ _ Hu); cbv zeta.
    destruct (existsb _ _); exact Same.
  - rewrite (updateCollection_does _ _ _ _ _ Hu).
    destruct (owned _ _ _); exact Same.
  - rewrite (listCollections_does _ _ _ _ _ Hu); exact Same.
  - rewrite (createQuote_does _ _ _ _ _ Hu).
    destruct (owned _ _ _); [|exact Same].
    cbv zeta; destruct (existsb _ _); [exact Same|].
    cbn [snd quotes]; exists q; repeat split; try reflexivity.
    rewrite nth_error_app1; [exact Hn|].
    apply nth_error_Some; rewrite Hn; discriminate.
  - rewrite (updateQuote_does _ _ _ _ _ Hu).
    destruct (owned _ _ _); [|exact Same].
    destruct (quote_under _ _ _); [|exact Same].
    cbn [snd quotes]; rewrite nth_error_map, Hn; cbn [option_map].
    eexists; split; [reflexivity|].
    destruct (Db.eq _ _ q); repeat split; reflexivity.
  - exfalso; apply (Hc i); reflexivity.
  - rewrite (listQuotes_does _ _ _ _ _ Hu).
    destruct (owned _ _ _); exact Same.
Qed.

Lemma quotes_persist_unless_deleted_witness :
  exists q',
    nth_error
      (quotes
         (snd (server (mkRuntime 4000 "x") (signed_in "alice")
                 (call_updateQuote
                    (updateQuote.mk "q-1" "c-1" (Some "Rest") None None None
                       None None None))
                 sample_store))) 0 = Some q'
    /\ Quotes.id q' = "q-1"
    /\ Quotes.collectionId q' = "c-1"
    /\ Quotes.userId q' = "alice"
    /\ Quotes.createdAt q' = 1003%Z.
Proof.
  apply (quotes_persist_unless_deleted (mkRuntime 4000 "x")
           (signed_in "alice")
           (call_updateQuote
              (updateQuote.mk "q-1" "c-1" (Some "Rest") None None None None
                 None None))
           sample_store 0
           (Quotes.mk "q-1" "c-1" "alice" "Keep going" (Some "Karthik")
              (Some "inspiring") None (Some "en") false false 1003 1003));
    [discriminate | reflexivity].
Defined.

(** ** Marking a favourite, then listing *)

(** X23:
    After a successful updateQuote that sets isFavorite, on a store with
    unique ids in which every quote carries the owner of its collection, the
    returned row is in the caller's favourites listing of that collection
    exactly when the flag was set to true. *)
Theorem favourite_then_listed rt rt' context u i b ip st env st' :
  locals_user (locals context) = Some u ->
  pk_unique st = true ->
  owner_consistent st = true ->
  updateQuote.isFavorite i = Some b ->
  server rt context (call_updateQuote i) st = (Fulfilled env, st') ->
  exists q' items,
    env = mkEnvelope true (quote_data (Some q'))
    /\ Quotes.id q' = updateQuote.id i
    /\ In q' (quotes st')
    /\ server rt' context
         (call_listQuotes
            (listQuotes.mk (updateQuote.collectionId i) (Some true) ip)) st'
       = (Fulfilled (mkEnvelope true (quote_items items (length items))), st')
    /\ (In q' items <-> b = true).
Proof.
  intros Hu K O Hb H.
  pose proof K as K'; apply pk_unique_NoDup in K'; destruct K' as [Kc Kq].
  apply server_fulfilled in H; destruct H as (Hv & H & _).
  assert (Hc : updateQuote.collectionId i <> "").
  { apply valid_iff in Hv; cbn [call_issues] in Hv.
    unfold updateQuote.issues in Hv; apply app_nil_iff in Hv.
    destruct Hv as [_ Hv]; apply app_nil_iff in Hv; destruct Hv as [Hv _].
    apply min1_nil in Hv; exact Hv. }
  cbn [handle] in H; rewrite (updateQuote_does _ _ _ _ _ Hu) in H.
  destruct (owned _ _ _) eqn:Ho; [|discriminate].
  destruct (quote_under _ _ _) eqn:Hq; [|discriminate].
  destruct (quote_under_row _ _ _ Hq) as (q & Hin & Hid & Hcid).
  cbv zeta in H; rewrite <- Hid in H.
  rewrite (first_patched Quotes.id _ _ _ Kq Hin) in H.
  injection H as <- <-.
  assert (Hin' : In (updateQuote.set rt i q)
                   (map (fun r => if Db.eq Quotes.id (Quotes.id q) r
                                  then updateQuote.set rt i r else r)
                      (quotes st))).
  { apply in_map_iff; exists q; split; [|exact Hin].
    unfold Db.eq; rewrite String.eqb_refl; reflexivity. }
  exists (updateQuote.set rt i q); eexists.
  split; [reflexivity|]. split; [exact Hid|]. split; [exact Hin'|]. split.
  - apply (listQuotes_serves _ _ _ _ _ _ _ Hu Hc).
    unfold owned; cbn [collections]; exact Ho.
  - unfold own_quotes_under; cbn [quotes Zod.or_default negb orb].
    rewrite filter_In; cbn [updateQuote.set Quotes.collectionId
                              Quotes.userId Quotes.isFavorite].
    rewrite Hb; cbn [assign].
    rewrite Hcid, (quote_owner st _ _ q K O Ho Hin Hcid), !String.eqb_refl.
    cbn [andb]; split; [tauto | intros ->; split; [exact Hin' | reflexivity]].
Qed.

Lemma favourite_then_listed_witness :
  exists q' items,
    Quotes.id q' = "q-1"
    /\ server (mkRuntime 4001 "x") (signed_in "alice")
         (call_listQuotes (listQuotes.mk "c-1" (Some true) None))
         favourite_store
       = (Fulfilled (mkEnvelope true (quote_items items (length items))),
          favourite_store)
    /\ (In q' items <-> true = true).
Proof.
  destruct (favourite_then_listed (mkRuntime 1004 "unused")
              (mkRuntime 4001 "x") (signed_in "alice") (mkUser "alice")
              (updateQuote.mk "q-1" "c-1" None None None None None
                 (Some true) None)
              true None sample_store _ favourite_store
              eq_refl eq_refl eq_refl eq_refl eq_refl)
    as (q' & items & _ & Hid & _ & H & Hiff).
  exists q', items; repeat split; try assumption; apply Hiff.
Defined.

(** ** Repeating an update *)

Lemma updateCollection_set_twice rt i r :
  updateCollection.set rt i (updateCollection.set rt i r)
  = updateCollection.set rt i r.
Proof.
  destruct i as [id [n|] [d|] [ic|] [f|]]; reflexivity.
Qed.

Lemma updateQuote_set_twice rt i r :
  updateQuote.set rt i (updateQuote.set rt i r) = updateQuote.set rt i r.
Proof.
  destruct i as [id cid [t|] [a|] [m|] [g|] [l|] [f|] [p|]]; reflexivity.
Qed.

Section PatchTwice.
Context {R : Type} (p : R -> bool) (s : R -> R).
Hypothesis p_s : forall r, p (s r) = p r.
Hypothesis s_s : forall r, s (s r) = s r.

Lemma patch_twice (t : list R) :
  map (fun r => if p r then s r else r)
    (map (fun r => if p r then s r else r) t)
  = map (fun r => if p r then s r else r) t.
Proof.
  rewrite map_map; apply map_ext; intros r.
  destruct (p r) eqn:E; [rewrite p_s, E, s_s | rewrite E]; reflexivity.
Qed.

Lemma returning_twice (t : list R) :
  map s (filter p (map (fun r => if p r then s r else r) t))
  = map s (filter p t).
Proof.
  induction t as [|r t IH]; cbn [map filter]; [reflexivity|].
  destruct (p r) eqn:E.
  - rewrite p_s, E; cbn [map]; rewrite s_s, IH; reflexivity.
  - rewrite E; exact IH.
Qed.
End PatchTwice.

Lemma patch_keeps_quote_under (rt : Runtime) (i : updateQuote.input)
    (p : Quotes.row -> bool) (st : Store) (id cid : string) :
  quote_under st id cid = true ->
  quote_under
    (mkStore (collections st)
       (map (fun r => if p r then updateQuote.set rt i r else r) (quotes st)))
    id cid = true.
Proof.
  unfold quote_under; cbn [quotes]; intros H.
  apply existsb_exists in H; destruct H as (q & Hin & Hq).
  apply existsb_exists.
  exists (if p q then updateQuote.set rt i q else q); split.
  - apply (in_map (fun r => if p r then updateQuote.set rt i r else r));
      exact Hin.
  - destruct (p q); exact Hq.
Qed.

(** X24:
    Sending the same update again at the same instant changes nothing more:
    when updateCollection or updateQuote has succeeded, the same call on the
    resulting store succeeds with the same envelope and leaves that store as
    it is. *)
Theorem update_retry_is_noop rt context st :
  (forall i env st',
      server rt context (call_updateCollection i) st = (Fulfilled env, st') ->
      server rt context (call_updateCollection i) st' = (Fulfilled env, st'))
  /\ (forall i env st',
      server rt context (call_updateQuote i) st = (Fulfilled env, st') ->
      server rt context (call_updateQuote i) st' = (Fulfilled env, st')).
Proof.
  split; intros i env st' H;
    apply server_fulfilled in H; destruct H as (Hv & H & u & Hu);
    rewrite (server_valid _ _ _ Hv); cbn [handle] in *.
  - rewrite (updateCollection_does _ _ _ _ _ Hu) in H.
    destruct (owned st _ _) eqn:Ho; [|discriminate].
    cbv zeta in H; injection H as <- <-.
    rewrite (updateCollection_does _ _ _ _ _ Hu).
    rewrite (effect_keeps_owned
               (rt, context, call_updateCollection i) st _ _ _
               (effect_patch_collections _ _ _ rt i
                  (Db.eq QuoteCollections.id (updateCollection.id i))
                  eq_refl) Ho).
    cbv zeta; cbn [collections quotes].
    rewrite patch_twice, returning_twice;
      try reflexivity; intros r; apply updateCollection_set_twice.
  - rewrite (updateQuote_does _ _ _ _ _ Hu) in H.
    destruct (owned st _ _) eqn:Ho; [|discriminate].
    destruct (quote_under st _ _) eqn:Hq; [|discriminate].
    cbv zeta in H; injection H as <- <-.
    rewrite (updateQuote_does _ _ _ _ _ Hu).
    replace (owned _ (updateQuote.collectionId i) (user_id u)) with true
      by (symmetry; exact Ho).
    rewrite (patch_keeps_quote_under rt i _ st _ _ Hq).
    cbv zeta; cbn [collections quotes].
    rewrite patch_twice, returning_twice;
      try reflexivity; intros r; apply updateQuote_set_twice.
Qed.

(** ** Creating, then deleting *)

(** X25:
    A quote that was just created can be deleted by its creator under the
    id that was generated for it (when that id is not empty), and the store
    is then exactly what it was before the quote was created. *)
Theorem createQuote_then_delete rt rt' context u i st env st' :
  locals_user (locals context) = Some u ->
  randomUUID rt <> "" ->
  server rt context (call_createQuote i) st = (Fulfilled env, st') ->
  server rt' context
    (call_deleteQuote
       (deleteQuote.mk (randomUUID rt) (createQuote.collectionId i))) st'
  = (Fulfilled (mkEnvelope true no_data), st).
Proof.
  intros Hu Hid H.
  apply server_fulfilled in H; destruct H as (Hv & H & _).
  assert (Hc : createQuote.collectionId i <> "").
  { apply valid_iff in Hv; cbn [call_issues] in Hv.
    unfold createQuote.issues in Hv; apply app_nil_iff in Hv.
    destruct Hv as [Hv _]; apply min1_nil in Hv; exact Hv. }
  cbn [handle] in H; rewrite (createQuote_does _ _ _ _ _ Hu) in H.
  destruct (owned st _ _) eqn:Ho; [|discriminate].
  cbv zeta in H; destruct (existsb _ (quotes st)) eqn:Hf; [discriminate|].
  injection H as _ <-.
  assert (Hv' : valid (call_deleteQuote
                         (deleteQuote.mk (randomUUID rt)
                            (createQuote.collectionId i))) = true).
  { apply valid_iff; cbn [call_issues]; unfold deleteQuote.issues.
    cbn [deleteQuote.id deleteQuote.collectionId].
    apply app_nil_iff; split; apply min1_nil; assumption. }
  rewrite (server_valid _ _ _ Hv'); cbn [handle].
  rewrite (deleteQuote_does _ _ _ _ _ Hu).
  cbn [deleteQuote.id deleteQuote.collectionId].
  replace (owned _ (createQuote.collectionId i) (user_id u)) with true
    by (symmetry; exact Ho).
  assert (Hq : forall q0 : Quotes.row,
             quote_under
               (mkStore (collections st) (quotes st ++ [q0])%list)
               (Quotes.id q0) (Quotes.collectionId q0) = true).
  { intros q0; unfold quote_under; cbn [quotes].
    rewrite existsb_app; cbn [existsb].
    rewrite !String.eqb_refl, orb_true_r; reflexivity. }
  rewrite (Hq (Quotes.mk (randomUUID rt) (createQuote.collectionId i) _ _ _ _
                 _ _ _ _ _ _)).
  cbn [collections quotes]; f_equal.
  rewrite filter_snoc, and2_true; unfold Db.eq at 1 2.
  cbn [Quotes.id Quotes.collectionId negb andb].
  rewrite !String.eqb_refl; cbn [negb andb].
  rewrite delete_nothing; [apply store_eta|].
  apply length_zero_iff_nil, filter_nil_iff, not_true_iff_false.
  intros E; apply existsb_exists in E; destruct E as (r & Hr & E).
  rewrite and2_true in E; apply andb_true_iff in E; destruct E as [E _].
  apply not_true_iff_false in Hf; apply Hf.
  apply existsb_exists; exists r; split; [exact Hr | exact E].
Qed.

Lemma createQuote_then_delete_witness :
  server (mkRuntime 3001 "x") (signed_in "alice")
    (call_deleteQuote (deleteQuote.mk "q-2" "c-1"))
    (snd (server (mkRuntime 3000 "q-2") (signed_in "alice")
            (call_createQuote
               (createQuote.mk "c-1" "Breathe" None None None None None None))
            sample_store))
  = (Fulfilled (mkEnvelope true no_data), sample_store).
Proof.
  refine (createQuote_then_delete (mkRuntime 3000 "q-2") (mkRuntime 3001 "x")
            (signed_in "alice") (mkUser "alice")
            (createQuote.mk "c-1" "Breathe" None None None None None None)
            sample_store _ _ eq_refl _ eq_refl).
  discriminate.
Defined.
